(** * personal-mcp-server: a shallow embedding of [src/index.ts]

    The server registers six resources and two prompts on a fresh
    [McpServer] for every POST to [/mcp], and rejects GET and DELETE.
    The handlers are embedded as computations in a small monad that
    reads the file system, records every file-system call and may throw;
    the registries are finite maps keyed by strings, as the SDK keeps
    them. *)

From Stdlib Require Import ZArith Ascii.
From stdpp Require Import gmap strings list fin_maps pretty.

Local Open Scope Z_scope.

(** ** JavaScript values the handlers touch *)

Module JS.

(** Exceptions that reach a handler's caller. *)
Inductive exn : Type :=
| ErrnoException (syscall : string) (path : string)
| TypeError (message : string)
| Error (message : string).

(** What [String.prototype.toLowerCase] does to a character of ASCII text:
    the letters A..Z are mapped to a..z and every other character is kept.
    The case mapping of the engine itself, which covers all of Unicode, is
    a field of the world the handlers run in. *)
Definition lower_char (c : ascii) : ascii :=
  let n := nat_of_ascii c in
  if (Nat.leb 65 n && Nat.leb n 90)%bool then ascii_of_nat (n + 32)%nat else c.

Fixpoint toAsciiLowerCase (s : string) : string :=
  match s with
  | EmptyString => EmptyString
  | String c s' => String (lower_char c) (toAsciiLowerCase s')
  end.

(** [Array.prototype.join]. *)
Fixpoint join (sep : string) (l : list string) : string :=
  match l with
  | [] => ""
  | [x] => x
  | x :: l' => x +:+ sep +:+ join sep l'
  end.

(** [s.startsWith(p)], and the rest of [s] after [p] when it does. *)
Fixpoint strip_prefix (p s : string) : option string :=
  match p, s with
  | EmptyString, _ => Some s
  | String a p', String b s' =>
      if Ascii.eqb a b then strip_prefix p' s' else None
  | String _ _, EmptyString => None
  end.

Definition startsWith (s p : string) : bool :=
  match strip_prefix p s with Some _ => true | None => false end.

(** The first occurrence of [pat] in [s] (what [indexOf] finds): the text
    before it and the text after it. *)
Fixpoint split_first (pat s : string) : option (string * string) :=
  match strip_prefix pat s with
  | Some rest => Some (EmptyString, rest)
  | None =>
      match s with
      | EmptyString => None
      | String c s' =>
          match split_first pat s' with
          | Some (before, after) => Some (String c before, after)
          | None => None
          end
      end
  end.

(** [GetSubstitution] for a string pattern (no capture groups): in the
    replacement text [$$] stands for a dollar sign, [$&] for the matched
    text, [$`] for the text before the match and [$'] for the text after
    it; a dollar sign followed by anything else stands for itself. *)
Fixpoint getSubstitution (matched before after repl : string) : string :=
  match repl with
  | EmptyString => EmptyString
  | String "$" (String "$" r) =>
      String "$" (getSubstitution matched before after r)
  | String "$" (String "&" r) =>
      matched +:+ getSubstitution matched before after r
  | String "$" (String "`" r) =>
      before +:+ getSubstitution matched before after r
  | String "$" (String "'" r) =>
      after +:+ getSubstitution matched before after r
  | String c r => String c (getSubstitution matched before after r)
  end.

(** [str.replace(pat, repl)] with a string pattern: only the first
    occurrence is replaced; without an occurrence [str] is returned. *)
Definition replace (str pat repl : string) : string :=
  match split_first pat str with
  | Some (before, after) =>
      before +:+ getSubstitution pat before after repl +:+ after
  | None => str
  end.

(** [s.split(sep)] for a separator of one character. *)
Fixpoint split (sep : ascii) (s : string) : list string :=
  match s with
  | EmptyString => [EmptyString]
  | String c s' =>
      if Ascii.eqb c sep then EmptyString :: split sep s'
      else match split sep s' with
           | seg :: segs => String c seg :: segs
           | [] => [String c EmptyString]
           end
  end.

(** Does the text hold the character? *)
Fixpoint has_char (c : ascii) (s : string) : bool :=
  match s with
  | EmptyString => false
  | String c' s' => (Ascii.eqb c' c || has_char c s')%bool
  end.

End JS.

(** ** [node:path], POSIX flavour *)

Module Path.

(** The segments of a path between its slashes. *)
Definition split (s : string) : list string := JS.split "/" s.

(** One segment of [normalizeString]; [kept] holds the segments kept so
    far, the last one first. Empty and single-dot segments are dropped, a
    double-dot segment removes the segment before it, or is kept when
    there is none to remove and the path is relative. *)
Definition step (allowAboveRoot : bool) (kept : list string) (seg : string)
  : list string :=
  if (String.eqb seg "" || String.eqb seg ".")%bool then kept
  else if String.eqb seg ".." then
    match kept with
    | top :: below =>
        if String.eqb top ".."
        then (if allowAboveRoot then ".." :: kept else kept)
        else below
    | [] => if allowAboveRoot then [".."] else []
    end
  else seg :: kept.

Definition normalizeString (path : string) (allowAboveRoot : bool) : string :=
  JS.join "/" (rev (fold_left (step allowAboveRoot) (split path) [])).

Fixpoint endsWithSlash (s : string) : bool :=
  match s with
  | EmptyString => false
  | String c EmptyString => Ascii.eqb c "/"
  | String _ s' => endsWithSlash s'
  end.

Definition isAbsolute (s : string) : bool :=
  match s with
  | String c _ => Ascii.eqb c "/"
  | EmptyString => false
  end.

Definition normalize (path : string) : string :=
  if String.eqb path "" then "."
  else
    let absolute := isAbsolute path in
    let trailingSeparator := endsWithSlash path in
    let p := normalizeString path (negb absolute) in
    if String.eqb p "" then
      (if absolute then "/" else if trailingSeparator then "./" else ".")
    else
      let p := if trailingSeparator then p +:+ "/" else p in
      if absolute then "/" +:+ p else p.

(** [path.join(...args)]: the non-empty arguments joined by a slash, then
    normalised. *)
Definition join (args : list string) : string :=
  match filter (fun a => a ≠ "") args with
  | [] => "."
  | parts => normalize (JS.join "/" parts)
  end.

(** [p] names something strictly below the directory [dir]. *)
Definition below (dir p : string) : bool := JS.startsWith p (dir +:+ "/").

End Path.

(** ** The file system and asynchronous computations over it *)

Module Node.

(** What the process runs in: the case mapping of the engine
    ([String.prototype.toLowerCase], taken as given), the working
    directory, the text of every readable file and the entries of every
    listable directory. *)
Record World : Type := {
  toLowerCase : string -> string;
  cwd : string;
  files : string -> option string;
  dirs : string -> option (list string)
}.

(** File-system calls, in the order they are made. *)
Inductive event : Type :=
| ReadFile (path : string)
| Readdir (path : string).

Inductive Result (A : Type) : Type :=
| Ok (a : A)
| Throw (e : JS.exn).
Arguments Ok {A} a.
Arguments Throw {A} e.

(** An [async] function body: it reads the world, makes file-system calls
    and either returns or throws. *)
Definition Async (A : Type) : Type := World -> list event * Result A.

Definition ret {A} (a : A) : Async A := fun _ => ([], Ok a).

Definition throw {A} (e : JS.exn) : Async A := fun _ => ([], Throw e).

Definition bind {A B} (m : Async A) (k : A -> Async B) : Async B :=
  fun w =>
    match m w with
    | (t, Ok a) => let '(t', r) := k a w in (t ++ t', r)
    | (t, Throw e) => (t, Throw e)
    end.

(** [try { body } catch (error) { handler }] *)
Definition try_catch {A} (body : Async A) (handler : JS.exn -> Async A)
  : Async A :=
  fun w =>
    match body w with
    | (t, Ok a) => (t, Ok a)
    | (t, Throw e) => let '(t', r) := handler e w in (t ++ t', r)
    end.

Definition process_cwd : Async string := fun w => ([], Ok (cwd w)).

(** [s.toLowerCase()] *)
Definition String_toLowerCase (s : string) : Async string :=
  fun w => ([], Ok (toLowerCase w s)).

(** [fs.promises.readFile(path, "utf-8")] *)
Definition readFile (path : string) : Async string :=
  fun w =>
    ([ReadFile path],
     match files w path with
     | Some text => Ok text
     | None => Throw (JS.ErrnoException "open" path)
     end).

(** [fs.promises.readdir(path)] *)
Definition readdir (path : string) : Async (list string) :=
  fun w =>
    ([Readdir path],
     match dirs w path with
     | Some entries => Ok entries
     | None => Throw (JS.ErrnoException "scandir" path)
     end).

Definition trace {A} (m : Async A) (w : World) : list event := fst (m w).
Definition outcome {A} (m : Async A) (w : World) : Result A := snd (m w).

End Node.

Export Node.

Notation "'let*' x ':=' m 'in' k" := (Node.bind m (fun x => k))
  (at level 10, x pattern, m at level 100, k at level 200).

(** ** Protocol data *)

(** A captured template variable: [string | string[]]. *)
Inductive capture : Type :=
| Single (s : string)
| Multi (l : list string).

(** A capture inside a template literal: an array prints as its elements
    separated by commas. *)
Definition interpolate (c : capture) : string :=
  match c with
  | Single s => s
  | Multi l => JS.join "," l
  end.

(** [c[0]] when [c] is an array, [c] itself otherwise; an empty array has no
    first element. *)
Definition first_value (c : capture) : option string :=
  match c with
  | Single s => Some s
  | Multi l => head l
  end.

(** [c === s] for a string [s]: an array is never equal to a string. *)
Definition strict_equals (c : capture) (s : string) : bool :=
  match c with
  | Single x => String.eqb x s
  | Multi _ => false
  end.

Record ResourceContents : Type := {
  uri : string;
  text : string;
  mimeType : option string
}.

Record ReadResourceResult : Type := { contents : list ResourceContents }.

Module Prompt.
Record TextContent : Type := { type : string; text : string }.
Record Message : Type := { role : string; content : TextContent }.
Record GetPromptResult : Type := { messages : list Message }.
End Prompt.

(** ** The SDK's server object *)

Module Mcp.

Record Metadata : Type := {
  title : string;
  description : string;
  metaMimeType : option string
}.

Definition ReadResourceCallback : Type := string -> Async ReadResourceResult.
Definition ReadResourceTemplateCallback : Type :=
  string -> capture -> Async ReadResourceResult.
Definition PromptCallback : Type := string -> Async Prompt.GetPromptResult.

Record RegisteredResource : Type := {
  resourceName : string;
  resourceMetadata : Metadata;
  readCallback : ReadResourceCallback
}.

Record RegisteredResourceTemplate : Type := {
  uriTemplate : string;
  templateMetadata : Metadata;
  readTemplateCallback : ReadResourceTemplateCallback
}.

Record RegisteredPrompt : Type := {
  promptMetadata : Metadata;
  argName : string;
  promptCallback : PromptCallback
}.

(** The registries of one server instance: fixed resources by URI,
    templates and prompts by name. *)
Record McpServer : Type := {
  name : string;
  version : string;
  registeredResources : gmap string RegisteredResource;
  registeredResourceTemplates : gmap string RegisteredResourceTemplate;
  registeredPrompts : gmap string RegisteredPrompt
}.

Definition new_McpServer (name version : string) : McpServer :=
  {| name := name; version := version;
     registeredResources := ∅;
     registeredResourceTemplates := ∅;
     registeredPrompts := ∅ |}.

(** [registerResource(name, uri, metadata, cb)] with a fixed URI: a URI
    that is already registered is an error. *)
Definition registerResource (nm uri : string) (md : Metadata)
    (cb : ReadResourceCallback) (server : McpServer) : Result McpServer :=
  match registeredResources server !! uri with
  | Some _ => Throw (JS.Error ("Resource " +:+ uri +:+ " is already registered"))
  | None =>
      Ok {| name := name server; version := version server;
            registeredResources :=
              <[uri := {| resourceName := nm; resourceMetadata := md;
                          readCallback := cb |}]> (registeredResources server);
            registeredResourceTemplates := registeredResourceTemplates server;
            registeredPrompts := registeredPrompts server |}
  end.

(** [registerResource(name, new ResourceTemplate(t, ...), metadata, cb)]. *)
Definition registerResourceTemplate (nm template : string) (md : Metadata)
    (cb : ReadResourceTemplateCallback) (server : McpServer)
  : Result McpServer :=
  match registeredResourceTemplates server !! nm with
  | Some _ =>
      Throw (JS.Error ("Resource template " +:+ nm +:+ " is already registered"))
  | None =>
      Ok {| name := name server; version := version server;
            registeredResources := registeredResources server;
            registeredResourceTemplates :=
              <[nm := {| uriTemplate := template; templateMetadata := md;
                         readTemplateCallback := cb |}]>
                (registeredResourceTemplates server);
            registeredPrompts := registeredPrompts server |}
  end.

(** [registerPrompt(name, config, cb)] for a prompt with one string
    argument. *)
Definition registerPrompt (nm : string) (md : Metadata) (arg : string)
    (cb : PromptCallback) (server : McpServer) : Result McpServer :=
  match registeredPrompts server !! nm with
  | Some _ => Throw (JS.Error ("Prompt " +:+ nm +:+ " is already registered"))
  | None =>
      Ok {| name := name server; version := version server;
            registeredResources := registeredResources server;
            registeredResourceTemplates := registeredResourceTemplates server;
            registeredPrompts :=
              <[nm := {| promptMetadata := md; argName := arg;
                         promptCallback := cb |}]> (registeredPrompts server) |}
  end.

End Mcp.

Global Instance Result_ret : MRet Result := fun _ a => Ok a.
Global Instance Result_bind : MBind Result := fun _ _ f m =>
  match m with
  | Ok a => f a
  | Throw e => Throw e
  end.

(** ** The handlers of [getServer] *)

Definition core_principles_text : string :=
"## Core Principles

- **Consistency First**: All code should follow established patterns and standards
- **Object-Oriented Preference**: Favor OOP design patterns unless functional programming is more appropriate for the specific use case
- **Self-Documenting Code**: Write code that explains itself through clear naming and structure
- **Containerized Development**: All projects should be Docker-ready from the start
- **Maintainability**: Code should be easy to read, modify, and extend".

Definition execution_instructions_head : string :=
"
# Execute BASE PRP

Implement a feature using using the PRP file.

## PRP File: 

".

Definition execution_instructions_tail : string :=
"

## Execution Process

1. **Load PRP**
   - Read the specified PRP file
   - Understand all context and requirements
   - Follow all instructions in the PRP and extend the research if needed
   - Ensure you have all needed context to implement the PRP fully
   - Do more web searches and codebase exploration as needed

2. **ULTRATHINK**
   - Think hard before you execute the plan. Create a comprehensive plan addressing all requirements.
   - Break down complex tasks into smaller, manageable steps using your todos tools.
   - Use the TodoWrite tool to create and track your implementation plan.
   - Identify implementation patterns from existing code to follow.

3. **Execute the plan**
   - Execute the PRP
   - Implement all the code

4. **Validate**
   - Run each validation command
   - Fix any failures
   - Re-run until all pass

5. **Complete**
   - Ensure all checklist items done
   - Run final validation suite
   - Report completion status
   - Read the PRP again to ensure you have implemented everything

6. **Reference the PRP**
   - You can always reference the PRP again if needed

Note: If validation fails, use error patterns in PRP to fix and retry.
      ".

Definition prp_placeholder : string :=
  "[What needs to be built - be specific about the end state and desires]".

Definition greeting (uri : string) (name : capture) : Async ReadResourceResult :=
  ret {| contents :=
           [ {| uri := uri;
                text := "Hello, " +:+ interpolate name
                        +:+ "! This is your personal MCP server.";
                mimeType := None |} ] |}.

Definition core_principles (uri : string) : Async ReadResourceResult :=
  ret {| contents :=
           [ {| uri := uri; text := core_principles_text; mimeType := None |} ] |}.

Definition standards_path (w : World) (languageName : string) : string :=
  Path.join [cwd w; "standards"; toLowerCase w languageName +:+ ".md"].

Definition language_standards (uri : string) (languageName : capture)
  : Async ReadResourceResult :=
  match first_value languageName with
  | None =>
      throw (JS.TypeError
               "Cannot read properties of undefined (reading 'toLowerCase')")
  | Some languageName =>
      let* lowerLang := String_toLowerCase languageName in
      let* cwd := process_cwd in
      let filePath := Path.join [cwd; "standards"; lowerLang +:+ ".md"] in
      let* (standardsText, mimeType) :=
        try_catch
          (let* standardsText := readFile filePath in
           ret (standardsText, "text/markdown"))
          (fun error =>
             ret ("No specific coding standards found for '"
                  +:+ languageName +:+ "'.", "text/plain")) in
      ret {| contents :=
               [ {| uri := uri; text := standardsText;
                    mimeType := Some mimeType |} ] |}
  end.

Definition claude_rules_path (cwd : string) : string :=
  Path.join [cwd; "context-template"; "CLAUDE.md"].

Definition claude_rules (uri : string) : Async ReadResourceResult :=
  let* cwd := process_cwd in
  let filePath := claude_rules_path cwd in
  let* fileContent := readFile filePath in
  ret {| contents :=
           [ {| uri := uri; text := fileContent; mimeType := None |} ] |}.

Definition prp_base_path (cwd : string) : string :=
  Path.join [cwd; "context-template"; "PRPs"; "templates"; "prp_base.md"].

Definition prp_base_template (uri : string) : Async ReadResourceResult :=
  let* cwd := process_cwd in
  let filePath := prp_base_path cwd in
  let* fileContent := readFile filePath in
  ret {| contents :=
           [ {| uri := uri; text := fileContent; mimeType := None |} ] |}.

Definition examples_dir (cwd : string) : string :=
  Path.join [cwd; "context-template"; "examples"].

Definition example_path (cwd exampleName : string) : string :=
  Path.join [examples_dir cwd; exampleName].

Definition examples (uri : string) (exampleName : capture)
  : Async ReadResourceResult :=
  let* cwd := process_cwd in
  let examplesDir := examples_dir cwd in
  if strict_equals exampleName "list" then
    let* files := readdir examplesDir in
    let fileList := JS.join "
" (map (fun file => "- " +:+ file) files) in
    ret {| contents :=
             [ {| uri := uri;
                  text := "Available examples:
" +:+ fileList;
                  mimeType := Some "text/markdown" |} ] |}
  else
    match exampleName with
    | Multi _ =>
        (* [path.join] rejects an argument that is not a string *)
        throw (JS.TypeError "ERR_INVALID_ARG_TYPE")
    | Single name =>
        let filePath := Path.join [examplesDir; name] in
        try_catch
          (let* fileContent := readFile filePath in
           ret {| contents :=
                    [ {| uri := uri; text := fileContent;
                         mimeType := Some "text/plain" |} ] |})
          (fun error =>
             ret {| contents :=
                      [ {| uri := uri;
                           text := "Example '" +:+ interpolate exampleName
                                   +:+ "' not found.";
                           mimeType := Some "text/plain" |} ] |})
    end.

Definition user_message (t : string) : Prompt.GetPromptResult :=
  {| Prompt.messages :=
       [ {| Prompt.role := "user";
            Prompt.content := {| Prompt.type := "text"; Prompt.text := t |} |} ] |}.

Definition generate_prp (initialContent : string) : Async Prompt.GetPromptResult :=
  let* cwd := process_cwd in
  let templatePath := prp_base_path cwd in
  let* templateContent := readFile templatePath in
  let prpContent := JS.replace templateContent prp_placeholder initialContent in
  ret (user_message prpContent).

Definition execute_prp (prpContent : string) : Async Prompt.GetPromptResult :=
  let executionInstructions :=
    execution_instructions_head +:+ prpContent +:+ execution_instructions_tail in
  ret (user_message executionInstructions).

(** [getServer]: a new server object with every resource and prompt
    registered on it, in the order of the source. *)
Definition getServer : Result Mcp.McpServer :=
  let server := Mcp.new_McpServer "personal-mcp-server" "1.0.0" in
  server ← Mcp.registerResourceTemplate "greeting" "greeting://{name}"
    {| Mcp.title := "Greeting Resource";
       Mcp.description := "Dynamic greeting generator";
       Mcp.metaMimeType := None |}
    greeting server;
  server ← Mcp.registerResource "core-principles" "principles://core"
    {| Mcp.title := "Core Principles";
       Mcp.description := "The core principles for development.";
       Mcp.metaMimeType := Some "text/markdown" |}
    core_principles server;
  server ← Mcp.registerResourceTemplate "language-standards"
    "standards://language/{languageName}"
    {| Mcp.title := "Language-Specific Coding Standards";
       Mcp.description := "Provides coding standards for a specific language.";
       Mcp.metaMimeType := None |}
    language_standards server;
  server ← Mcp.registerResource "claude-rules" "rules://claude.md"
    {| Mcp.title := "Claude AI Rules";
       Mcp.description := "The global rules for the AI assistant.";
       Mcp.metaMimeType := Some "text/markdown" |}
    claude_rules server;
  server ← Mcp.registerResource "prp-base-template" "templates://prp_base.md"
    {| Mcp.title := "Base PRP Template";
       Mcp.description := "The base template for generating new PRPs.";
       Mcp.metaMimeType := Some "text/markdown" |}
    prp_base_template server;
  server ← Mcp.registerResourceTemplate "examples" "examples://{exampleName}"
    {| Mcp.title := "Code Examples";
       Mcp.description :=
         "Provides code examples from the context-template/examples directory.";
       Mcp.metaMimeType := None |}
    examples server;
  server ← Mcp.registerPrompt "generate-prp"
    {| Mcp.title := "Generate PRP";
       Mcp.description :=
         "Generates a Product Requirements Prompt (PRP) from an initial feature request.";
       Mcp.metaMimeType := None |}
    "initialContent" generate_prp server;
  server ← Mcp.registerPrompt "execute-prp"
    {| Mcp.title := "Execute PRP";
       Mcp.description :=
         "Executes a Product Requirements Prompt (PRP) to implement a feature.";
       Mcp.metaMimeType := None |}
    "prpContent" execute_prp server;
  mret server.

(** ** Express: JSON bodies and the response object *)

Module Express.

#[warning="-register-all"] Inductive json : Type :=
| JNull
| JNumber (z : Z)
| JString (s : string)
| JObject (members : list (string * json)).

Definition hex_digit (n : nat) : ascii :=
  ascii_of_nat (if Nat.ltb n 10 then 48 + n else 87 + n)%nat.

(** One character inside a JSON string, as [JSON.stringify] writes it. *)
Definition escape_char (c : ascii) : string :=
  let n := nat_of_ascii c in
  let bs := String "\" EmptyString in
  if Nat.eqb n 34 then bs +:+ String c EmptyString
  else if Nat.eqb n 92 then bs +:+ bs
  else if Nat.eqb n 8 then bs +:+ "b"
  else if Nat.eqb n 9 then bs +:+ "t"
  else if Nat.eqb n 10 then bs +:+ "n"
  else if Nat.eqb n 12 then bs +:+ "f"
  else if Nat.eqb n 13 then bs +:+ "r"
  else if Nat.ltb n 32 then
    bs +:+ "u00" +:+ String (hex_digit (n / 16)) (String (hex_digit (n mod 16)) EmptyString)
  else String c EmptyString.

Fixpoint escape (s : string) : string :=
  match s with
  | EmptyString => EmptyString
  | String c s' => escape_char c +:+ escape s'
  end.

Definition quote (s : string) : string :=
  let dq := String (ascii_of_nat 34) EmptyString in
  dq +:+ escape s +:+ dq.

(** [JSON.stringify] on the values built here. *)
Fixpoint stringify (j : json) : string :=
  match j with
  | JNull => "null"
  | JNumber z => pretty z
  | JString s => quote s
  | JObject members =>
      "{" +:+ JS.join ","
                (map (fun kv => quote (fst kv) +:+ ":" +:+ stringify (snd kv))
                     members)
          +:+ "}"
  end.

(** The member [k] of an object. *)
Fixpoint member (k : string) (members : list (string * json)) : option json :=
  match members with
  | [] => None
  | (k', v) :: rest => if String.eqb k k' then Some v else member k rest
  end.

Definition get (k : string) (j : json) : option json :=
  match j with
  | JObject members => member k members
  | _ => None
  end.

(** An incoming request: its verb on [/mcp] and its parsed body. *)
Inductive verb : Type := GET | POST | DELETE.

Record Request : Type := { method : verb; body : json }.

(** The response object: the status line, whether the headers have gone
    out, the chunks written so far and whether the response is ended. *)
Record Response : Type := {
  statusCode : Z;
  headersSent : bool;
  written : list string;
  writableEnded : bool
}.

Definition new_Response : Response :=
  {| statusCode := 200; headersSent := false; written := [];
     writableEnded := false |}.

(** [res.status(code)] *)
Definition status (code : Z) (res : Response) : Response :=
  {| statusCode := code; headersSent := headersSent res;
     written := written res; writableEnded := writableEnded res |}.

(** [res.writeHead(code)] *)
Definition writeHead (code : Z) (res : Response) : Response :=
  {| statusCode := code; headersSent := true;
     written := written res; writableEnded := writableEnded res |}.

(** [res.end(chunk)] *)
Definition end_ (chunk : string) (res : Response) : Response :=
  {| statusCode := statusCode res; headersSent := true;
     written := written res ++ [chunk]; writableEnded := true |}.

(** [res.json(obj)] *)
Definition json_ (obj : json) (res : Response) : Response :=
  end_ (stringify obj) res.

End Express.

Export Express.

(** ** The endpoint *)

(** What the SDK does with a request once the server is built: connecting
    the server to a new transport, and letting the transport handle the
    request, which writes to the response and may throw part-way. The
    transport is given the server of this request, the world the callbacks
    read, the request and the response object. *)
Class Sdk : Type := {
  connect : Mcp.McpServer -> Result unit;
  handleRequest :
    Mcp.McpServer -> World -> Request -> Response -> Response * Result unit
}.

Definition error_envelope (code : Z) (message : string) : json :=
  JObject [ ("jsonrpc", JString "2.0");
            ("error", JObject [ ("code", JNumber code);
                                ("message", JString message) ]);
            ("id", JNull) ].

(** The error of an envelope, when it has one. *)
Definition envelope_error (j : json) : option (Z * string) :=
  match Express.get "error" j with
  | Some e =>
      match Express.get "code" e, Express.get "message" e with
      | Some (JNumber c), Some (JString m) => Some (c, m)
      | _, _ => None
      end
  | None => None
  end.

(** A success envelope carries a result. *)
Definition is_success_envelope (j : json) : bool :=
  match Express.get "result" j with Some _ => true | None => false end.

(** The body of the [try] block of the POST handler: what it leaves in the
    response, and whether it threw. *)
Definition post_attempt `{Sdk} (w : World) (req : Request) (res : Response)
  : Response * Result unit :=
  match getServer with
  | Throw e => (res, Throw e)
  | Ok server =>
      match connect server with
      | Throw e => (res, Throw e)
      | Ok _ => handleRequest server w req res
      end
  end.

(** [app.post("/mcp", ...)]: the final response and what went to
    [console.error]. *)
Definition post_mcp `{Sdk} (w : World) (req : Request) (res : Response)
  : Response * list JS.exn :=
  match post_attempt w req res with
  | (res, Ok _) => (res, [])
  | (res, Throw error) =>
      (if negb (headersSent res)
       then json_ (error_envelope (-32603) "Internal server error")
                  (status 500 res)
       else res,
       [error])
  end.

(** [app.get("/mcp", ...)] *)
Definition get_mcp (req : Request) (res : Response) : Response :=
  end_ (stringify (error_envelope (-32000) "Method not allowed."))
       (writeHead 405 res).

(** [app.delete("/mcp", ...)] *)
Definition delete_mcp (req : Request) (res : Response) : Response :=
  end_ (stringify (error_envelope (-32000) "Method not allowed."))
       (writeHead 405 res).

(** The three routes of [app], each run on the response object Express
    creates for the request. *)
Definition app `{Sdk} (w : World) (req : Request) : Response :=
  match method req with
  | POST => fst (post_mcp w req new_Response)
  | GET => get_mcp req new_Response
  | DELETE => delete_mcp req new_Response
  end.

(** The process answering a sequence of requests, each against the file
    system of its moment. *)
Fixpoint serve `{Sdk} (arrivals : list (World * Request)) : list Response :=
  match arrivals with
  | [] => []
  | (w, req) :: later => app w req :: serve later
  end.

(** ** The objects of the process *)

(** The transport with the state it keeps: the SDK holds its registries and
    its connection in the server object, so handling a request may leave the
    server it is connected to changed. The transport of a request is given
    the server of that request and no other object of the process. *)
Class Transport : Type := {
  connect_object : Mcp.McpServer -> Result unit;
  handleRequest_object :
    Mcp.McpServer -> World -> Request -> Response
    -> Mcp.McpServer * (Response * Result unit)
}.

(** What the handlers of [app] see of such a transport. *)
Definition sdk_of (T : Transport) : Sdk :=
  {| connect := connect_object;
     handleRequest := fun server w req res =>
       snd (handleRequest_object server w req res) |}.

(** The [catch] block of the POST handler. *)
Definition post_catch (res : Response) (error : JS.exn)
  : Response * list JS.exn :=
  (if negb (headersSent res)
   then json_ (error_envelope (-32603) "Internal server error") (status 500 res)
   else res,
   [error]).

(** The POST handler on the store of server objects the process has made so
    far, each under its reference: [getServer()] makes a new object, the
    transport works on that object, and the object stays in the store as
    the handling left it. *)
Definition post_mcp_on `{Transport} (heap : gmap nat Mcp.McpServer)
    (w : World) (req : Request) (res : Response)
  : gmap nat Mcp.McpServer * (Response * list JS.exn) :=
  match getServer with
  | Throw error => (heap, post_catch res error)
  | Ok server =>
      let ref := fresh (dom heap) in
      let heap := <[ref := server]> heap in
      match connect_object server with
      | Throw error => (heap, post_catch res error)
      | Ok _ =>
          let '(server, (res, r)) := handleRequest_object server w req res in
          let heap := <[ref := server]> heap in
          match r with
          | Ok _ => (heap, (res, []))
          | Throw error => (heap, post_catch res error)
          end
      end
  end.

(** The three routes on the store. *)
Definition app_on `{Transport} (heap : gmap nat Mcp.McpServer)
    (w : World) (req : Request) : gmap nat Mcp.McpServer * Response :=
  match method req with
  | POST =>
      let '(heap, (res, _)) := post_mcp_on heap w req new_Response in (heap, res)
  | GET => (heap, get_mcp req new_Response)
  | DELETE => (heap, delete_mcp req new_Response)
  end.

(** The process answering a sequence of requests, the store going from one
    request to the next. *)
Fixpoint run `{Transport} (heap : gmap nat Mcp.McpServer)
    (arrivals : list (World * Request)) : gmap nat Mcp.McpServer * list Response :=
  match arrivals with
  | [] => (heap, [])
  | (w, req) :: later =>
      let '(heap, res) := app_on heap w req in
      let '(heap, rest) := run heap later in
      (heap, res :: rest)
  end.

(** ** A sample deployment *)

Definition sample_template : string :=
  "## Goal
" +:+ prp_placeholder +:+ "
## Why
".

Definition sample_files : gmap string string :=
  {[ "/srv/app/standards/go.md" := "## Coding Standards (Go)";
     "/srv/app/context-template/CLAUDE.md" := "# Rules";
     "/srv/app/context-template/PRPs/templates/prp_base.md" := sample_template;
     "/srv/app/context-template/examples/hello.ts" := "export {};";
     "/srv/app/secret.txt" := "s3cret";
     "/srv/app/secret.md" := "hidden" ]}.

Definition sample_dirs : gmap string (list string) :=
  {[ "/srv/app/context-template/examples" := ["hello.ts"; "README.md"] ]}.

Definition sample_world : World :=
  {| toLowerCase := JS.toAsciiLowerCase;
     cwd := "/srv/app";
     files := fun p => sample_files !! p;
     dirs := fun p => sample_dirs !! p |}.

(** The same process in a directory with none of the files. *)
Definition bare_world : World :=
  {| toLowerCase := JS.toAsciiLowerCase; cwd := "/srv/app";
     files := fun _ => None; dirs := fun _ => None |}.

(** A transport that throws before it has written anything. *)
Definition throws_early : Sdk :=
  {| connect := fun _ => Ok tt;
     handleRequest := fun _ _ _ res => (res, Throw (JS.Error "parse error")) |}.

(** A transport that throws after the headers have gone out. *)
Definition throws_late : Sdk :=
  {| connect := fun _ => Ok tt;
     handleRequest := fun _ _ _ res =>
       (writeHead 200 res, Throw (JS.Error "stream closed")) |}.

(** A transport that answers every request by reading the rules resource
    from the registry of the server it is given. *)
Definition reads_rules : Sdk :=
  {| connect := fun _ => Ok tt;
     handleRequest := fun server w _ res =>
       match Mcp.registeredResources server !! "rules://claude.md" with
       | Some r =>
           match outcome (Mcp.readCallback r "rules://claude.md") w with
           | Ok {| contents := c :: _ |} => (end_ (text c) (writeHead 200 res), Ok tt)
           | Ok _ => (end_ "" (writeHead 200 res), Ok tt)
           | Throw e => (res, Throw e)
           end
       | None => (res, Throw (JS.Error "Resource not found"))
       end |}.

(** A transport that serves the rules resource from the registry of its
    server and then takes the resource out of that registry: on a server it
    has served from before, it finds nothing. *)
Definition serves_rules_once : Transport :=
  {| connect_object := fun _ => Ok tt;
     handleRequest_object := fun server w _ res =>
       match Mcp.registeredResources server !! "rules://claude.md" with
       | Some r =>
           let served :=
             {| Mcp.name := Mcp.name server; Mcp.version := Mcp.version server;
                Mcp.registeredResources :=
                  delete "rules://claude.md" (Mcp.registeredResources server);
                Mcp.registeredResourceTemplates :=
                  Mcp.registeredResourceTemplates server;
                Mcp.registeredPrompts := Mcp.registeredPrompts server |} in
           match outcome (Mcp.readCallback r "rules://claude.md") w with
           | Ok {| contents := c :: _ |} =>
               (served, (end_ (text c) (writeHead 200 res), Ok tt))
           | Ok _ => (served, (end_ "" (writeHead 200 res), Ok tt))
           | Throw e => (served, (res, Throw e))
           end
       | None => (server, (res, Throw (JS.Error "Resource not found")))
       end |}.

(** [needle] occurs in [s]. *)
Definition includes (s needle : string) : bool :=
  match JS.split_first needle s with Some _ => true | None => false end.

(** A path segment that [normalize] keeps as it is: not empty, not a dot or
    a double dot, and without a slash. *)
Definition clean_segment (seg : string) : bool :=
  (negb (String.eqb seg "") && negb (String.eqb seg ".")
   && negb (String.eqb seg "..") && negb (JS.has_char "/" seg))%bool.

(** An absolute path other than the root that is already normal: a slash
    before each of its segments, all of them clean. *)
Definition clean_absolute (p : string) : bool :=
  match Path.split p with
  | EmptyString :: seg :: segs => forallb clean_segment (seg :: segs)
  | _ => false
  end.

(** ** Properties of the primitives *)

Section AsyncLaws.
Context {A B : Type}.

Lemma bind_ret (a : A) (k : A -> Async B) (w : World) :
  Node.bind (ret a) k w = k a w.
Proof. unfold Node.bind, ret. destruct (k a w); reflexivity. Qed.

Lemma bind_throw (e : JS.exn) (k : A -> Async B) (w : World) :
  Node.bind (throw e) k w = ([], Throw e).
Proof. reflexivity. Qed.

Lemma bind_ret_r (m : Async A) (w : World) : Node.bind m ret w = m w.
Proof.
  unfold Node.bind, ret. destruct (m w) as [t [a|e]]; [|reflexivity].
  rewrite app_nil_r. reflexivity.
Qed.

Lemma bind_assoc {C : Type} (m : Async A) (k : A -> Async B)
    (h : B -> Async C) (w : World) :
  Node.bind (Node.bind m k) h w = Node.bind m (fun a => Node.bind (k a) h) w.
Proof.
  unfold Node.bind. destruct (m w) as [t [a|e]]; [|reflexivity].
  destruct (k a w) as [t' [b|e]]; [|reflexivity].
  destruct (h b w) as [t'' r]. rewrite app_assoc. reflexivity.
Qed.

(** A [try] whose body returns is the body; one whose body throws goes on
    with the handler. *)
Lemma try_catch_ok (body : Async A) (handler : JS.exn -> Async A)
    (w : World) (t : list event) (a : A) :
  body w = (t, Ok a) -> try_catch body handler w = (t, Ok a).
Proof. intros Hb. unfold try_catch. rewrite Hb. reflexivity. Qed.

Lemma try_catch_throw (body : Async A) (handler : JS.exn -> Async A)
    (w : World) (t : list event) (e : JS.exn) :
  body w = (t, Throw e) ->
  try_catch body handler w = (t ++ fst (handler e w), snd (handler e w)).
Proof.
  intros Hb. unfold try_catch. rewrite Hb.
  destruct (handler e w); reflexivity.
Qed.

End AsyncLaws.

(** [split] undoes [join] on parts that do not hold the separator. *)
Lemma split_without_sep (sep : ascii) (x : string) :
  JS.has_char sep x = false -> JS.split sep x = [x].
Proof.
  induction x as [|c x IH]; [reflexivity|].
  simpl. intros H. apply orb_false_iff in H as [Hc Hx].
  rewrite Hc, (IH Hx). reflexivity.
Qed.

Lemma split_app_sep (sep : ascii) (x rest : string) :
  JS.has_char sep x = false ->
  JS.split sep (x +:+ String sep rest) = x :: JS.split sep rest.
Proof.
  induction x as [|c x IH]; intros H.
  - simpl. rewrite Ascii.eqb_refl. reflexivity.
  - simpl in H. apply orb_false_iff in H as [Hc Hx].
    change (String c x +:+ String sep rest)
      with (String c (x +:+ String sep rest)).
    simpl. rewrite Hc, (IH Hx). reflexivity.
Qed.

Lemma split_join (sep : ascii) (parts : list string) :
  parts <> [] ->
  Forall (fun x => JS.has_char sep x = false) parts ->
  JS.split sep (JS.join (String sep "") parts) = parts.
Proof.
  intros Hne Hall. induction Hall as [|x l Hx Hl IH]; [contradiction|].
  destruct l as [|y l].
  - simpl. apply split_without_sep, Hx.
  - change (JS.join (String sep "") (x :: y :: l))
      with (x +:+ String sep (JS.join (String sep "") (y :: l))).
    rewrite split_app_sep by exact Hx. f_equal. apply IH. discriminate.
Qed.

Example language_Go_resolves_to_go_md :
  standards_path sample_world "Go" = "/srv/app/standards/go.md".
Proof. reflexivity. Qed.

(** ** The language-standards resource *)

(** A capture with several values is replaced by its first value before
    anything else is done with it. *)
Lemma language_standards_first_value (uri n : string) (rest : list string) :
  language_standards uri (Multi (n :: rest)) = language_standards uri (Single n).
Proof. reflexivity. Qed.

(** The handler reads one file, whatever the outcome. *)
Lemma language_standards_trace (uri name : string) (c : capture) (w : World) :
  first_value c = Some name ->
  trace (language_standards uri c) w
  = [ReadFile (standards_path w name)].
Proof.
  intros Hc. unfold trace, language_standards. rewrite Hc.
  unfold Node.bind, String_toLowerCase, process_cwd, try_catch, readFile, ret.
  simpl. fold (standards_path w name).
  destruct (files w (standards_path w name)); reflexivity.
Qed.

(** C1: for a request to standards://language/{languageName} whose capture
    has the (first) value [name], the handler lower-cases [name], with the
    case mapping of the engine whatever it does to [name], and reads
    standards/<lower-cased name>.md under the working directory; when the
    read succeeds the reply holds the text of the file with media type
    text/markdown, and when it fails the reply is still a result, holding
    exactly the sentence "No specific coding standards found for '<name>'."
    with [name] as it was captured, and media type text/plain. *)
Theorem language_standards_spec (uri name : string) (c : capture) (w : World) :
  first_value c = Some name ->
  let filePath :=
    Path.join [cwd w; "standards"; toLowerCase w name +:+ ".md"] in
  trace (language_standards uri c) w = [ReadFile filePath] /\
  (forall standardsText,
     files w filePath = Some standardsText ->
     outcome (language_standards uri c) w
     = Ok {| contents :=
               [ {| uri := uri; text := standardsText;
                    mimeType := Some "text/markdown" |} ] |}) /\
  (files w filePath = None ->
   outcome (language_standards uri c) w
   = Ok {| contents :=
             [ {| uri := uri;
                  text := "No specific coding standards found for '"
                          +:+ name +:+ "'.";
                  mimeType := Some "text/plain" |} ] |}).
Proof.
  intros Hc filePath. split; [exact (language_standards_trace uri name c w Hc)|].
  unfold outcome, language_standards. rewrite Hc.
  unfold Node.bind, String_toLowerCase, process_cwd, try_catch, readFile, ret.
  simpl. change (Path.join _) with filePath.
  split.
  - intros standardsText Hhit. rewrite Hhit. reflexivity.
  - intros Hmiss. rewrite Hmiss. reflexivity.
Qed.

Lemma language_standards_spec_witness :
  outcome (language_standards "standards://language/Go" (Single "Go")) sample_world
  = Ok {| contents :=
            [ {| uri := "standards://language/Go";
                 text := "## Coding Standards (Go)";
                 mimeType := Some "text/markdown" |} ] |}
  /\
  outcome (language_standards "standards://language/Nonexistent"
             (Single "Nonexistent")) sample_world
  = Ok {| contents :=
            [ {| uri := "standards://language/Nonexistent";
                 text := "No specific coding standards found for 'Nonexistent'.";
                 mimeType := Some "text/plain" |} ] |}.
Proof.
  split.
  - apply (proj1 (proj2 (language_standards_spec "standards://language/Go" "Go"
                           (Single "Go") sample_world eq_refl))).
    vm_compute. reflexivity.
  - apply (proj2 (proj2 (language_standards_spec "standards://language/Nonexistent"
                           "Nonexistent" (Single "Nonexistent") sample_world
                           eq_refl))).
    vm_compute. reflexivity.
Defined.

(** ** The generate-prp prompt *)

Lemma strip_prefix_app (p s rest : string) :
  JS.strip_prefix p s = Some rest -> s = p +:+ rest.
Proof.
  revert s. induction p as [|a p IH]; intros s H.
  - simpl in H. destruct s; injection H as <-; reflexivity.
  - destruct s as [|b s]; [discriminate H|]. simpl in H.
    destruct (Ascii.eqb a b) eqn:E; [|discriminate H].
    apply Ascii.eqb_eq in E as <-.
    change (String a s = String a (p +:+ rest)). f_equal. apply IH, H.
Qed.

(** What [split_first] returns are the two sides of an occurrence. *)
Lemma split_first_app (pat s before after : string) :
  JS.split_first pat s = Some (before, after) ->
  s = before +:+ pat +:+ after.
Proof.
  revert before. induction s as [|c s IH]; intros before H.
  - simpl in H. destruct (JS.strip_prefix pat "") eqn:E; [|discriminate H].
    injection H as <- <-. apply strip_prefix_app in E. exact E.
  - simpl in H. destruct (JS.strip_prefix pat (String c s)) eqn:E.
    + injection H as <- <-. apply strip_prefix_app in E. exact E.
    + destruct (JS.split_first pat s) as [[b a]|] eqn:E'; [|discriminate H].
      injection H as <- <-.
      change (String c s = String c (b +:+ pat +:+ a)).
      f_equal. apply IH. reflexivity.
Qed.

(** A replacement text without a dollar sign is inserted as it is. *)
Lemma getSubstitution_plain (matched before after repl : string) :
  JS.has_char "$" repl = false ->
  JS.getSubstitution matched before after repl = repl.
Proof.
  induction repl as [|c r IH]; [reflexivity|].
  simpl JS.has_char. intros H. apply orb_false_iff in H as [Hc Hr].
  specialize (IH Hr).
  destruct c as [[] [] [] [] [] [] [] []]; try discriminate Hc;
    simpl; rewrite IH; reflexivity.
Qed.

(** Without the pattern in it, the text comes back as it is. *)
Lemma replace_absent (str pat repl : string) :
  JS.split_first pat str = None -> JS.replace str pat repl = str.
Proof. intros H. unfold JS.replace. rewrite H. reflexivity. Qed.

(** With a replacement text that holds no dollar sign, [replace] puts it in
    the place of the first occurrence and keeps the rest. *)
Lemma replace_plain (str pat repl before after : string) :
  JS.has_char "$" repl = false ->
  JS.split_first pat str = Some (before, after) ->
  str = before +:+ pat +:+ after /\
  JS.replace str pat repl = before +:+ repl +:+ after.
Proof.
  intros Hd Hs. split; [apply split_first_app, Hs|].
  unfold JS.replace. rewrite Hs, getSubstitution_plain by exact Hd. reflexivity.
Qed.

(** X12: the prompt reads the base template once and answers with one user
    message: the template itself when the placeholder is not in it, and the
    template with the first placeholder replaced by [initialContent] when
    [initialContent] holds no dollar sign. *)
Lemma generate_prp_plain (initialContent template : string) (w : World) :
  files w (prp_base_path (cwd w)) = Some template ->
  trace (generate_prp initialContent) w = [ReadFile (prp_base_path (cwd w))] /\
  (JS.split_first prp_placeholder template = None ->
   outcome (generate_prp initialContent) w = Ok (user_message template)) /\
  (forall before after,
     JS.has_char "$" initialContent = false ->
     JS.split_first prp_placeholder template = Some (before, after) ->
     template = before +:+ prp_placeholder +:+ after /\
     outcome (generate_prp initialContent) w
     = Ok (user_message (before +:+ initialContent +:+ after))).
Proof.
  intros Hf. unfold trace, outcome, generate_prp.
  unfold Node.bind, process_cwd, readFile, ret. simpl. rewrite Hf. simpl.
  split; [reflexivity|]. split.
  - intros Habs. rewrite replace_absent by exact Habs. reflexivity.
  - intros before after Hd Hs.
    destruct (replace_plain template prp_placeholder initialContent
                before after Hd Hs) as [Ht Hr].
    split; [exact Ht|]. rewrite Hr. reflexivity.
Qed.

(** C2: the replacement text is not inserted literally when it holds a
    dollar pattern. With the sample template and the content
    "Save $$5 with $& today", the message holds "Save $5 with <the
    placeholder> today", which differs from the template with the
    placeholder replaced by the content. *)
Theorem generate_prp_dollar_patterns :
  let initialContent := "Save $$5 with $& today" in
  files sample_world (prp_base_path (cwd sample_world))
  = Some ("## Goal
" +:+ prp_placeholder +:+ "
## Why
") /\
  outcome (generate_prp initialContent) sample_world
  = Ok (user_message ("## Goal
Save $5 with " +:+ prp_placeholder +:+ " today
## Why
")) /\
  outcome (generate_prp initialContent) sample_world
  <> Ok (user_message ("## Goal
" +:+ initialContent +:+ "
## Why
")).
Proof.
  intros initialContent. split; [vm_compute; reflexivity|].
  split; [vm_compute; reflexivity|].
  vm_compute. intros H. discriminate H.
Qed.

(** ** Captures with several values *)

(** The greeting prints every value of the capture, separated by commas. *)
Lemma greeting_interpolates_all (uri : string) (names : list string) (w : World) :
  outcome (greeting uri (Multi names)) w
  = Ok {| contents :=
            [ {| uri := uri;
                 text := "Hello, " +:+ JS.join "," names
                         +:+ "! This is your personal MCP server.";
                 mimeType := None |} ] |}.
Proof. reflexivity. Qed.

(** The examples handler throws on every capture with several values, before
    any file-system call. *)
Lemma examples_multi_throws (uri : string) (names : list string) (w : World) :
  examples uri (Multi names) w = ([], Throw (JS.TypeError "ERR_INVALID_ARG_TYPE")).
Proof. reflexivity. Qed.

(** C3: only the language-standards handler takes the first value of a
    capture with several values. On the capture [Ann, Bob] the greeting
    greets "Ann,Bob", not "Ann"; on the capture [hello.ts, other] the
    examples handler throws a type error although examples/hello.ts is
    readable, where the single capture hello.ts returns the file; on the
    capture [Go, Rust] the language-standards handler answers as for Go. *)
Theorem multi_value_capture_at_sample :
  outcome (greeting "greeting://Ann,Bob" (Multi ["Ann"; "Bob"])) sample_world
  = Ok {| contents :=
            [ {| uri := "greeting://Ann,Bob";
                 text := "Hello, Ann,Bob! This is your personal MCP server.";
                 mimeType := None |} ] |}
  /\
  outcome (greeting "greeting://Ann,Bob" (Multi ["Ann"; "Bob"])) sample_world
  <> outcome (greeting "greeting://Ann,Bob" (Single "Ann")) sample_world
  /\
  outcome (examples "examples://hello.ts,other" (Multi ["hello.ts"; "other"]))
    sample_world
  = Throw (JS.TypeError "ERR_INVALID_ARG_TYPE")
  /\
  outcome (examples "examples://hello.ts,other" (Single "hello.ts")) sample_world
  = Ok {| contents :=
            [ {| uri := "examples://hello.ts,other";
                 text := "export {};";
                 mimeType := Some "text/plain" |} ] |}
  /\
  language_standards "standards://language/Go,Rust" (Multi ["Go"; "Rust"])
    sample_world
  = language_standards "standards://language/Go,Rust" (Single "Go") sample_world.
Proof.
  split; [reflexivity|].
  split; [vm_compute; intros H; discriminate H|].
  split; [reflexivity|].
  split; [vm_compute; reflexivity|].
  reflexivity.
Qed.

(** ** The examples resource *)

(** The capture list makes the one listing call on the examples directory
    and no other call. *)
Lemma examples_list_trace (uri : string) (w : World) :
  trace (examples uri (Single "list")) w = [Readdir (examples_dir (cwd w))].
Proof.
  unfold trace, examples, Node.bind, process_cwd, readdir, ret. simpl.
  destruct (dirs w (examples_dir (cwd w))); reflexivity.
Qed.

(** C4: when the capture is the token list, the examples handler answers
    with markdown text made of a heading line followed by one bullet per
    entry of the examples directory: as many bullets as entries, the i-th
    bullet being "- " followed by the i-th entry of the enumeration. *)
Theorem examples_list_spec (uri : string) (entries : list string) (w : World) :
  dirs w (examples_dir (cwd w)) = Some entries ->
  exists bullets : list string,
    outcome (examples uri (Single "list")) w
    = Ok {| contents :=
              [ {| uri := uri;
                   text := "Available examples:
" +:+ JS.join "
" bullets;
                   mimeType := Some "text/markdown" |} ] |} /\
    length bullets = length entries /\
    forall i : nat,
      bullets !! i = (fun file => "- " +:+ file) <$> (entries !! i).
Proof.
  intros Hd. exists (map (fun file => "- " +:+ file) entries).
  split; [|split].
  - unfold outcome, examples, Node.bind, process_cwd, readdir, ret. simpl.
    rewrite Hd. reflexivity.
  - apply length_map.
  - intros i. apply list_lookup_fmap.
Qed.

Lemma examples_list_spec_witness :
  exists bullets : list string,
    outcome (examples "examples://list" (Single "list")) sample_world
    = Ok {| contents :=
              [ {| uri := "examples://list";
                   text := "Available examples:
" +:+ JS.join "
" bullets;
                   mimeType := Some "text/markdown" |} ] |} /\
    length bullets = 2%nat /\
    forall i : nat,
      bullets !! i = (fun file => "- " +:+ file) <$> (["hello.ts"; "README.md"] !! i).
Proof.
  apply (examples_list_spec "examples://list" ["hello.ts"; "README.md"]
           sample_world).
  vm_compute. reflexivity.
Defined.

(** X8: read back line by line, the listing of a directory that is not empty
    and whose entries hold no line break is the heading followed by the
    bullets of the entries, in their order. *)
Lemma examples_list_lines (uri : string) (entries : list string) (w : World) :
  dirs w (examples_dir (cwd w)) = Some entries ->
  entries <> [] ->
  Forall (fun file => JS.has_char "010" file = false) entries ->
  exists item,
    outcome (examples uri (Single "list")) w = Ok {| contents := [item] |}
    /\ JS.split "010" (text item)
       = "Available examples:" :: map (fun file => "- " +:+ file) entries.
Proof.
  intros Hd Hne Hall. eexists. split.
  - unfold outcome, examples, Node.bind, process_cwd, readdir, ret. simpl.
    rewrite Hd. reflexivity.
  - cbn [text].
    change ("Available examples:
" +:+ ?r) with ("Available examples:" +:+ String "010" r).
    rewrite split_app_sep by reflexivity. f_equal.
    apply (split_join "010").
    + destruct entries; [contradiction|discriminate].
    + apply Forall_map. eapply Forall_impl; [exact Hall|].
      intros file Hfile. exact Hfile.
Qed.

(** A capture other than the token list is looked up as a file. *)
Lemma examples_single (uri name : string) (w : World) :
  name <> "list" ->
  examples uri (Single name) w
  = try_catch
      (let* fileContent := readFile (example_path (cwd w) name) in
       ret {| contents :=
                [ {| uri := uri; text := fileContent;
                     mimeType := Some "text/plain" |} ] |})
      (fun _ =>
         ret {| contents :=
                  [ {| uri := uri;
                       text := "Example '" +:+ name +:+ "' not found.";
                       mimeType := Some "text/plain" |} ] |}) w.
Proof.
  intros Hn. apply String.eqb_neq in Hn.
  unfold examples, Node.bind at 1, process_cwd. simpl. rewrite Hn.
  unfold example_path.
  destruct (try_catch _ _ w) as [t r]. reflexivity.
Qed.

Lemma examples_trace (uri name : string) (w : World) :
  name <> "list" ->
  trace (examples uri (Single name)) w = [ReadFile (example_path (cwd w) name)].
Proof.
  intros Hn. unfold trace. rewrite examples_single by exact Hn.
  unfold try_catch, Node.bind, readFile, ret.
  destruct (files w (example_path (cwd w) name)); reflexivity.
Qed.

(** X10: an example that cannot be read is answered, after the one read,
    with a result holding the plain-text notice 'Example '<name>' not
    found.'; nothing is thrown. *)
Lemma examples_miss (uri name : string) (w : World) :
  name <> "list" ->
  files w (example_path (cwd w) name) = None ->
  outcome (examples uri (Single name)) w
  = Ok {| contents :=
            [ {| uri := uri;
                 text := "Example '" +:+ name +:+ "' not found.";
                 mimeType := Some "text/plain" |} ] |}.
Proof.
  intros Hn Hf. unfold outcome. rewrite examples_single by exact Hn.
  unfold try_catch, Node.bind, readFile, ret. rewrite Hf. reflexivity.
Qed.

(** C10: for every example name other than list whose file is read, the
    examples handler returns the text of the file labelled text/plain: the
    one content item carries that media type, neither text/markdown nor
    none. *)
Theorem examples_hit_is_plain_text (uri name fileContent : string) (w : World) :
  name <> "list" ->
  files w (Path.join [examples_dir (cwd w); name]) = Some fileContent ->
  outcome (examples uri (Single name)) w
  = Ok {| contents :=
            [ {| uri := uri; text := fileContent;
                 mimeType := Some "text/plain" |} ] |} /\
  forall r, outcome (examples uri (Single name)) w = Ok r ->
    Forall (fun c => mimeType c = Some "text/plain"
                     /\ mimeType c <> Some "text/markdown"
                     /\ mimeType c <> None) (contents r).
Proof.
  intros Hn Hf.
  assert (Hout : outcome (examples uri (Single name)) w
                 = Ok {| contents :=
                           [ {| uri := uri; text := fileContent;
                                mimeType := Some "text/plain" |} ] |}).
  { unfold outcome. rewrite examples_single by exact Hn.
    unfold try_catch, Node.bind, readFile, ret, example_path.
    rewrite Hf. reflexivity. }
  split; [exact Hout|].
  intros r Hr. rewrite Hout in Hr. injection Hr as <-.
  constructor; [|constructor]. simpl. repeat split; discriminate.
Qed.

Lemma examples_hit_is_plain_text_witness :
  outcome (examples "examples://hello.ts" (Single "hello.ts")) sample_world
  = Ok {| contents :=
            [ {| uri := "examples://hello.ts"; text := "export {};";
                 mimeType := Some "text/plain" |} ] |}.
Proof.
  apply (examples_hit_is_plain_text "examples://hello.ts" "hello.ts"
           "export {};" sample_world).
  - intros H. discriminate H.
  - vm_compute. reflexivity.
Defined.

(** ** The fixed-path resources *)



(** ** The endpoint *)

(** What a registration does to the three registries: the new key joins the
    registry it belongs to, and the other two are kept. *)
Lemma registerResource_spec (nm uri : string) (md : Mcp.Metadata)
    (cb : Mcp.ReadResourceCallback) (server : Mcp.McpServer) :
  uri ∉ dom (Mcp.registeredResources server) ->
  exists server',
    Mcp.registerResource nm uri md cb server = Ok server'
    /\ dom (Mcp.registeredResources server')
       = {[ uri ]} ∪ dom (Mcp.registeredResources server)
    /\ dom (Mcp.registeredResourceTemplates server')
       = dom (Mcp.registeredResourceTemplates server)
    /\ dom (Mcp.registeredPrompts server') = dom (Mcp.registeredPrompts server).
Proof.
  intros Hfresh. apply not_elem_of_dom in Hfresh.
  unfold Mcp.registerResource. rewrite Hfresh. eexists. split; [reflexivity|].
  cbn [Mcp.registeredResources Mcp.registeredResourceTemplates
       Mcp.registeredPrompts].
  rewrite dom_insert_L. repeat split.
Qed.

Lemma registerResourceTemplate_spec (nm template : string) (md : Mcp.Metadata)
    (cb : Mcp.ReadResourceTemplateCallback) (server : Mcp.McpServer) :
  nm ∉ dom (Mcp.registeredResourceTemplates server) ->
  exists server',
    Mcp.registerResourceTemplate nm template md cb server = Ok server'
    /\ dom (Mcp.registeredResources server')
       = dom (Mcp.registeredResources server)
    /\ dom (Mcp.registeredResourceTemplates server')
       = {[ nm ]} ∪ dom (Mcp.registeredResourceTemplates server)
    /\ dom (Mcp.registeredPrompts server') = dom (Mcp.registeredPrompts server).
Proof.
  intros Hfresh. apply not_elem_of_dom in Hfresh.
  unfold Mcp.registerResourceTemplate. rewrite Hfresh.
  eexists. split; [reflexivity|].
  cbn [Mcp.registeredResources Mcp.registeredResourceTemplates
       Mcp.registeredPrompts].
  rewrite dom_insert_L. repeat split.
Qed.

Lemma registerPrompt_spec (nm : string) (md : Mcp.Metadata) (arg : string)
    (cb : Mcp.PromptCallback) (server : Mcp.McpServer) :
  nm ∉ dom (Mcp.registeredPrompts server) ->
  exists server',
    Mcp.registerPrompt nm md arg cb server = Ok server'
    /\ dom (Mcp.registeredResources server')
       = dom (Mcp.registeredResources server)
    /\ dom (Mcp.registeredResourceTemplates server')
       = dom (Mcp.registeredResourceTemplates server)
    /\ dom (Mcp.registeredPrompts server')
       = {[ nm ]} ∪ dom (Mcp.registeredPrompts server).
Proof.
  intros Hfresh. apply not_elem_of_dom in Hfresh.
  unfold Mcp.registerPrompt. rewrite Hfresh. eexists. split; [reflexivity|].
  cbn [Mcp.registeredResources Mcp.registeredResourceTemplates
       Mcp.registeredPrompts].
  rewrite dom_insert_L. repeat split.
Qed.

#[local] Set Warnings "-clear-no-such-hyp".

(** One registration of [getServer]: with the keys registered so far
    known, the new key is seen to be free, the call returns a server, and
    the rest of [getServer] goes on with it. *)
Ltac register spec s' :=
  let E := fresh "E" in
  let R := fresh "R" in
  let T := fresh "T" in
  let P := fresh "P" in
  match goal with
  | HR : dom (Mcp.registeredResources ?s) = _,
    HT : dom (Mcp.registeredResourceTemplates ?s) = _,
    HP : dom (Mcp.registeredPrompts ?s) = _
    |- context [ mbind _ (_ ?a ?b ?c ?d ?s) ] =>
      destruct (spec a b c d s) as (s' & E & R & T & P);
      [ rewrite ?HR, ?HT, ?HP; clear; set_solver
      | rewrite E; cbn [mbind Result_bind];
        rewrite HR in R; rewrite HT in T; rewrite HP in P;
        clear HR HT HP E ]
  end.

(** Building the server never fails, as no URI and no name is registered
    twice, and it ends with three fixed resources, three templates and two
    prompts. *)
Lemma getServer_spec :
  exists server,
    getServer = Ok server
    /\ dom (Mcp.registeredResources server)
       = ({[ "principles://core"; "rules://claude.md";
             "templates://prp_base.md" ]} : gset string)
    /\ dom (Mcp.registeredResourceTemplates server)
       = ({[ "greeting"; "language-standards"; "examples" ]} : gset string)
    /\ dom (Mcp.registeredPrompts server)
       = ({[ "generate-prp"; "execute-prp" ]} : gset string).
Proof.
  unfold getServer.
  set (s0 := Mcp.new_McpServer "personal-mcp-server" "1.0.0").
  assert (R0 : dom (Mcp.registeredResources s0) = (∅ : gset string))
    by apply dom_empty_L.
  assert (T0 : dom (Mcp.registeredResourceTemplates s0) = (∅ : gset string))
    by apply dom_empty_L.
  assert (P0 : dom (Mcp.registeredPrompts s0) = (∅ : gset string))
    by apply dom_empty_L.
  clearbody s0.
  register registerResourceTemplate_spec s1.
  register registerResource_spec s2.
  register registerResourceTemplate_spec s3.
  register registerResource_spec s4.
  register registerResource_spec s5.
  register registerResourceTemplate_spec s6.
  register registerPrompt_spec s7.
  register registerPrompt_spec s8.
  exists s8. split; [reflexivity|].
  match goal with
  | HR : dom (Mcp.registeredResources s8) = _,
    HT : dom (Mcp.registeredResourceTemplates s8) = _,
    HP : dom (Mcp.registeredPrompts s8) = _ |- _ => rewrite HR, HT, HP
  end.
  clear. repeat split; set_solver.
Qed.

Lemma getServer_ok : exists server, getServer = Ok server.
Proof. destruct getServer_spec as (server & Hs & _). exists server. exact Hs. Qed.

(** Registering on a server that already holds the name throws: a server
    object cannot be set up a second time. *)
Lemma registerResourceTemplate_twice
    (nm t : string) (md : Mcp.Metadata) (cb : Mcp.ReadResourceTemplateCallback)
    (server server' : Mcp.McpServer) :
  Mcp.registerResourceTemplate nm t md cb server = Ok server' ->
  Mcp.registerResourceTemplate nm t md cb server'
  = Throw (JS.Error ("Resource template " +:+ nm +:+ " is already registered")).
Proof.
  unfold Mcp.registerResourceTemplate.
  destruct (Mcp.registeredResourceTemplates server !! nm) eqn:E; [discriminate|].
  intros Hs. injection Hs as <-. simpl. rewrite lookup_insert_eq. reflexivity.
Qed.

(** The bytes of the two fixed envelopes. *)
Lemma internal_error_bytes :
  stringify (error_envelope (-32603) "Internal server error")
  = JS.join (String (ascii_of_nat 34) "")
      [ "{"; "jsonrpc"; ":"; "2.0"; ","; "error"; ":{"; "code"; ":-32603,";
        "message"; ":"; "Internal server error"; "},"; "id"; ":null}" ].
Proof. vm_compute. reflexivity. Qed.

Lemma method_not_allowed_bytes :
  stringify (error_envelope (-32000) "Method not allowed.")
  = JS.join (String (ascii_of_nat 34) "")
      [ "{"; "jsonrpc"; ":"; "2.0"; ","; "error"; ":{"; "code"; ":-32000,";
        "message"; ":"; "Method not allowed."; "},"; "id"; ":null}" ].
Proof. vm_compute. reflexivity. Qed.

(** C6: when the handling of a POST request throws, the handler catches the
    exception. If the headers have not been sent, it answers with status 500
    and the envelope with error code -32603, message "Internal server error"
    and a null id; if they have been sent, the response is left as the
    failed handling left it and no envelope is written. In both cases the
    exception goes to the console and no further. *)
Theorem post_unhandled_exception `{Sdk}
    (w : World) (req : Request) (res res' : Response) (error : JS.exn) :
  post_attempt w req res = (res', Throw error) ->
  (headersSent res' = false ->
   fst (post_mcp w req res)
   = {| statusCode := 500; headersSent := true;
        written := written res'
                   ++ [stringify (error_envelope (-32603) "Internal server error")];
        writableEnded := true |}
   /\ envelope_error (error_envelope (-32603) "Internal server error")
      = Some (-32603, "Internal server error")
   /\ Express.get "id" (error_envelope (-32603) "Internal server error")
      = Some JNull)
  /\ (headersSent res' = true -> fst (post_mcp w req res) = res')
  /\ snd (post_mcp w req res) = [error].
Proof.
  intros Ha. unfold post_mcp. rewrite Ha.
  split; [|split].
  - intros Hh. rewrite Hh. simpl. repeat split.
  - intros Hh. rewrite Hh. reflexivity.
  - reflexivity.
Qed.

Lemma post_unhandled_exception_witness :
  fst (@post_mcp throws_early sample_world {| method := POST; body := JNull |}
         new_Response)
  = {| statusCode := 500; headersSent := true;
       written := [stringify (error_envelope (-32603) "Internal server error")];
       writableEnded := true |}
  /\
  fst (@post_mcp throws_late sample_world {| method := POST; body := JNull |}
         new_Response)
  = {| statusCode := 200; headersSent := true; written := [];
       writableEnded := false |}.
Proof.
  split.
  - refine (proj1 (proj1 (@post_unhandled_exception throws_early sample_world
                            {| method := POST; body := JNull |}
                            new_Response new_Response (JS.Error "parse error")
                            _) _)).
    + vm_compute. reflexivity.
    + reflexivity.
  - refine (proj1 (proj2 (@post_unhandled_exception throws_late sample_world
                            {| method := POST; body := JNull |}
                            new_Response (writeHead 200 new_Response)
                            (JS.Error "stream closed") _)) _).
    + vm_compute. reflexivity.
    + reflexivity.
Defined.

(** C7: every GET and every DELETE on the endpoint is answered with status
    405 and the envelope with error code -32000 and message
    "Method not allowed."; the envelope carries an error and no result. *)
Theorem get_delete_method_not_allowed `{Sdk} (w : World) (req : Request) :
  method req = GET \/ method req = DELETE ->
  app w req
  = {| statusCode := 405; headersSent := true;
       written := [stringify (error_envelope (-32000) "Method not allowed.")];
       writableEnded := true |}
  /\ envelope_error (error_envelope (-32000) "Method not allowed.")
     = Some (-32000, "Method not allowed.")
  /\ is_success_envelope (error_envelope (-32000) "Method not allowed.") = false.
Proof.
  intros [Hm|Hm]; unfold app; rewrite Hm; repeat split.
Qed.

Lemma get_delete_method_not_allowed_witness :
  @app reads_rules sample_world {| method := DELETE; body := JNull |}
  = {| statusCode := 405; headersSent := true;
       written := [stringify (error_envelope (-32000) "Method not allowed.")];
       writableEnded := true |}.
Proof.
  refine (proj1 (@get_delete_method_not_allowed reads_rules sample_world
                   {| method := DELETE; body := JNull |} _)).
  right. reflexivity.
Defined.

(** ** Requests do not influence one another *)

Lemma serve_app `{Sdk} (l1 l2 : list (World * Request)) :
  serve (l1 ++ l2) = serve l1 ++ serve l2.
Proof.
  induction l1 as [|[w req] l1 IH]; [reflexivity|].
  simpl. rewrite IH. reflexivity.
Qed.

(** The answer to an arrival is the answer it would get as the only
    arrival. *)
Lemma serve_lookup `{Sdk} (arrivals : list (World * Request)) (i : nat)
    (w : World) (req : Request) :
  arrivals !! i = Some (w, req) -> serve arrivals !! i = Some (app w req).
Proof.
  revert i. induction arrivals as [|[w' req'] l IH]; intros i Hi.
  - destruct i; discriminate Hi.
  - destruct i as [|i]; simpl in *.
    + injection Hi as -> ->. reflexivity.
    + apply IH, Hi.
Qed.

(** On the store, the POST handler answers as [post_mcp] does with what the
    transport lets be seen of itself. *)
Lemma post_mcp_on_response `{T : Transport} (heap : gmap nat Mcp.McpServer)
    (w : World) (req : Request) (res : Response) :
  snd (post_mcp_on heap w req res) = @post_mcp (sdk_of T) w req res.
Proof.
  unfold post_mcp_on, post_mcp, post_attempt, post_catch.
  destruct getServer as [server|error]; [|reflexivity].
  cbn [connect handleRequest sdk_of].
  destruct (connect_object server) as [u|error]; [|reflexivity].
  destruct (handleRequest_object server w req res) as [server' [res' [u'|error]]];
    reflexivity.
Qed.

(** The reference of a new object is not one of the store. *)
Lemma fresh_reference (heap : gmap nat Mcp.McpServer) (ref : nat)
    (server : Mcp.McpServer) :
  heap !! ref = Some server -> fresh (dom heap) <> ref.
Proof.
  intros Hl Hf. apply (is_fresh (dom heap)). rewrite Hf.
  apply elem_of_dom. exists server. exact Hl.
Qed.

(** The POST handler leaves every object that was in the store as it was. *)
Lemma post_mcp_on_frame `{Transport} (heap : gmap nat Mcp.McpServer)
    (w : World) (req : Request) (res : Response)
    (ref : nat) (server : Mcp.McpServer) :
  heap !! ref = Some server ->
  fst (post_mcp_on heap w req res) !! ref = Some server.
Proof.
  intros Hl. pose proof (fresh_reference heap ref server Hl) as Hne.
  unfold post_mcp_on.
  destruct getServer as [made|error]; [|exact Hl].
  destruct (connect_object made) as [u|error].
  - destruct (handleRequest_object made w req res) as [made' [res' [u'|error]]];
      cbn [fst]; rewrite !lookup_insert_ne by exact Hne; exact Hl.
  - cbn [fst]. rewrite lookup_insert_ne by exact Hne. exact Hl.
Qed.

(** Every POST adds one object to the store, under a reference the store
    did not hold: the server [getServer] has built for this request. *)
Lemma post_mcp_on_allocates `{Transport} (heap : gmap nat Mcp.McpServer)
    (w : World) (req : Request) (res : Response) :
  (fresh (dom heap) ∉ dom heap)
  /\ dom (fst (post_mcp_on heap w req res)) = {[ fresh (dom heap) ]} ∪ dom heap.
Proof.
  split; [apply is_fresh|].
  destruct getServer_ok as [made Hs]. unfold post_mcp_on. rewrite Hs.
  destruct (connect_object made) as [u|error].
  - destruct (handleRequest_object made w req res) as [made' [res' [u'|error]]];
      cbn [fst]; rewrite !dom_insert_L; set_solver.
  - cbn [fst]. rewrite dom_insert_L. reflexivity.
Qed.

Lemma app_on_response `{T : Transport} (heap : gmap nat Mcp.McpServer)
    (w : World) (req : Request) :
  snd (app_on heap w req) = @app (sdk_of T) w req.
Proof.
  unfold app_on, app. destruct (method req); [reflexivity| |reflexivity].
  rewrite <- (post_mcp_on_response heap).
  destruct (post_mcp_on heap w req new_Response) as [heap' [res' logged]].
  reflexivity.
Qed.

Lemma app_on_frame `{Transport} (heap : gmap nat Mcp.McpServer)
    (w : World) (req : Request) (ref : nat) (server : Mcp.McpServer) :
  heap !! ref = Some server ->
  fst (app_on heap w req) !! ref = Some server.
Proof.
  intros Hl. unfold app_on. destruct (method req); [exact Hl| |exact Hl].
  pose proof (post_mcp_on_frame heap w req new_Response ref server Hl) as Hf.
  destruct (post_mcp_on heap w req new_Response) as [heap' [res' logged]].
  exact Hf.
Qed.

(** Whatever the store holds, the process gives the answers of [serve]. *)
Lemma run_responses `{T : Transport} (heap : gmap nat Mcp.McpServer)
    (arrivals : list (World * Request)) :
  snd (run heap arrivals) = @serve (sdk_of T) arrivals.
Proof.
  revert heap. induction arrivals as [|[w req] later IH]; intros heap.
  - reflexivity.
  - cbn [run serve]. pose proof (app_on_response heap w req) as Ha.
    destruct (app_on heap w req) as [heap' res]. cbn [snd] in Ha.
    specialize (IH heap').
    destruct (run heap' later) as [heap'' rest]. cbn [snd] in *.
    rewrite <- Ha, <- IH. reflexivity.
Qed.

Lemma run_frame `{Transport} (heap : gmap nat Mcp.McpServer)
    (arrivals : list (World * Request)) (ref : nat) (server : Mcp.McpServer) :
  heap !! ref = Some server ->
  fst (run heap arrivals) !! ref = Some server.
Proof.
  revert heap. induction arrivals as [|[w req] later IH]; intros heap Hl.
  - exact Hl.
  - cbn [run].
    pose proof (app_on_frame heap w req ref server Hl) as Hf.
    destruct (app_on heap w req) as [heap' res]. cbn [fst] in Hf.
    specialize (IH heap' Hf).
    destruct (run heap' later) as [heap'' rest]. exact IH.
Qed.

(** C8: the process keeps the server objects it has made in a store that
    goes from one request to the next, and the transport may change the
    server it works on. Still, two arrivals of the same request against the
    same file system get the same response, byte for byte, wherever they
    stand in the sequence and whatever the store held at the start: the
    response a process with an empty store gives. For every request builds
    its own server (a POST adds one object to the store, under a reference
    the store did not hold), and every object that was in the store before
    is left as it was. *)
Theorem same_request_same_response `{Transport}
    (heap : gmap nat Mcp.McpServer) (arrivals : list (World * Request))
    (i j : nat) (w : World) (req : Request) :
  arrivals !! i = Some (w, req) ->
  arrivals !! j = Some (w, req) ->
  snd (run heap arrivals) !! i = Some (snd (app_on ∅ w req))
  /\ snd (run heap arrivals) !! j = Some (snd (app_on ∅ w req))
  /\ (forall ref server,
        heap !! ref = Some server ->
        fst (run heap arrivals) !! ref = Some server)
  /\ (forall store res,
        (fresh (dom store) ∉ dom store)
        /\ dom (fst (post_mcp_on store w req res))
           = {[ fresh (dom store) ]} ∪ dom store).
Proof.
  intros Hi Hj. rewrite run_responses, (app_on_response ∅).
  split; [|split; [|split]].
  - apply serve_lookup, Hi.
  - apply serve_lookup, Hj.
  - intros ref server Hl. apply run_frame, Hl.
  - intros store res. apply post_mcp_on_allocates.
Qed.

Lemma same_request_same_response_witness :
  let post := {| method := POST; body := JNull |} in
  let answer :=
    {| statusCode := 200; headersSent := true; written := ["# Rules"];
       writableEnded := true |} in
  snd (@run serves_rules_once ∅ [(sample_world, post); (sample_world, post)])
    !! 0%nat = Some answer
  /\ snd (@run serves_rules_once ∅ [(sample_world, post); (sample_world, post)])
       !! 1%nat = Some answer.
Proof.
  intros post answer.
  destruct (@same_request_same_response serves_rules_once ∅
              [(sample_world, post); (sample_world, post)] 0%nat 1%nat
              sample_world post eq_refl eq_refl) as (H0 & H1 & _ & _).
  rewrite H0, H1.
  assert (Ha : snd (@app_on serves_rules_once ∅ sample_world post) = answer)
    by (vm_compute; reflexivity).
  rewrite Ha. split; reflexivity.
Defined.

(** The sample transport does keep state in its server: on the server it
    has just served from, the same request finds no resource. *)
Remark serves_rules_once_forgets :
  match getServer with
  | Ok server =>
      let post := {| method := POST; body := JNull |} in
      let '(served, first) :=
        @handleRequest_object serves_rules_once server sample_world post
          new_Response in
      first = ({| statusCode := 200; headersSent := true; written := ["# Rules"];
                  writableEnded := true |}, Ok tt)
      /\ snd (@handleRequest_object serves_rules_once served sample_world post
                new_Response)
         = (new_Response, Throw (JS.Error "Resource not found"))
  | Throw _ => False
  end.
Proof. vm_compute. split; reflexivity. Qed.

(** ** Paths built from captured names *)

(** C9, as stated: the path the examples handler reads is the base
    directory, a slash and the name, as they are. It is not: for the name
    docs/../hello.ts the handler reads examples/hello.ts. *)
Lemma plain_join_counterexample :
  trace (examples "examples://docs/../hello.ts" (Single "docs/../hello.ts"))
    sample_world
  = [ReadFile "/srv/app/context-template/examples/hello.ts"]
  /\ trace (examples "examples://docs/../hello.ts" (Single "docs/../hello.ts"))
       sample_world
     <> [ReadFile (examples_dir (cwd sample_world) +:+ "/" +:+ "docs/../hello.ts")].
Proof.
  split; [vm_compute; reflexivity|].
  vm_compute. intros H. discriminate H.
Qed.

(** C9, amended: the standards and examples handlers read the path that
    [path.join] makes of the base directory and the captured name, which
    resolves the dot and double-dot segments of the name and is checked
    against nothing; so there are names holding ../ for which the path lies
    outside the base directory and the file there is read and returned. *)
Theorem path_traversal_is_read :
  (forall uri name w,
     name <> "list" ->
     trace (examples uri (Single name)) w
     = [ReadFile (Path.join [Path.join [cwd w; "context-template"; "examples"];
                             name])])
  /\
  (forall uri name w,
     trace (language_standards uri (Single name)) w
     = [ReadFile (Path.join [cwd w; "standards";
                             toLowerCase w name +:+ ".md"])])
  /\
  (exists name,
     includes name "../" = true
     /\ Path.below (Path.join [cwd sample_world; "context-template"; "examples"])
          (example_path (cwd sample_world) name) = false
     /\ examples ("examples://" +:+ name) (Single name) sample_world
        = ([ReadFile "/srv/app/secret.txt"],
           Ok {| contents :=
                   [ {| uri := "examples://" +:+ name; text := "s3cret";
                        mimeType := Some "text/plain" |} ] |}))
  /\
  (exists name,
     includes name "../" = true
     /\ Path.below (Path.join [cwd sample_world; "standards"])
          (standards_path sample_world name) = false
     /\ language_standards ("standards://language/" +:+ name) (Single name)
          sample_world
        = ([ReadFile "/srv/app/secret.md"],
           Ok {| contents :=
                   [ {| uri := "standards://language/" +:+ name; text := "hidden";
                        mimeType := Some "text/markdown" |} ] |})).
Proof.
  split; [|split; [|split]].
  - intros uri name w Hn. apply examples_trace, Hn.
  - intros uri name w. apply language_standards_trace. reflexivity.
  - exists "../../secret.txt". repeat split; vm_compute; reflexivity.
  - exists "../Secret". repeat split; vm_compute; reflexivity.
Qed.

Lemma path_traversal_is_read_witness :
  trace (examples "examples://hello.ts" (Single "hello.ts")) sample_world
  = [ReadFile "/srv/app/context-template/examples/hello.ts"].
Proof.
  refine (proj1 path_traversal_is_read "examples://hello.ts" "hello.ts"
            sample_world _).
  intros H. discriminate H.
Defined.

(** * Further properties of the handlers *)

(** ** Text primitives *)

Lemma string_app_assoc (a b c : string) : (a +:+ b) +:+ c = a +:+ b +:+ c.
Proof.
  induction a as [|x a IH]; [reflexivity|].
  change (String x ((a +:+ b) +:+ c) = String x (a +:+ b +:+ c)).
  rewrite IH. reflexivity.
Qed.

Lemma string_app_nil_r (a : string) : a +:+ "" = a.
Proof.
  induction a as [|x a IH]; [reflexivity|].
  change (String x (a +:+ "") = String x a). rewrite IH. reflexivity.
Qed.

Lemma string_length_app (a b : string) :
  String.length (a +:+ b) = (String.length a + String.length b)%nat.
Proof.
  induction a as [|x a IH]; [reflexivity|].
  change (S (String.length (a +:+ b)) = S (String.length a + String.length b)).
  rewrite IH. reflexivity.
Qed.

Lemma strip_prefix_self (p rest : string) :
  JS.strip_prefix p (p +:+ rest) = Some rest.
Proof.
  induction p as [|a p IH]; [destruct rest; reflexivity|].
  change (JS.strip_prefix (String a p) (String a (p +:+ rest)) = Some rest).
  simpl. rewrite Ascii.eqb_refl. exact IH.
Qed.

Lemma startsWith_app (p rest : string) : JS.startsWith (p +:+ rest) p = true.
Proof. unfold JS.startsWith. rewrite strip_prefix_self. reflexivity. Qed.

(** [split_first] finds the first occurrence: no occurrence of the pattern
    starts earlier than the one it returns. *)
Lemma split_first_minimal (pat s before after : string) :
  JS.split_first pat s = Some (before, after) ->
  forall before' after',
    s = before' +:+ pat +:+ after' ->
    (String.length before <= String.length before')%nat.
Proof.
  revert before. induction s as [|c s IH]; intros before H before' after' Hs.
  - simpl in H. destruct (JS.strip_prefix pat "") eqn:E; [|discriminate H].
    injection H as <- <-. simpl. lia.
  - simpl in H. destruct (JS.strip_prefix pat (String c s)) eqn:E.
    + injection H as <- <-. simpl. lia.
    + destruct (JS.split_first pat s) as [[b a]|] eqn:E'; [|discriminate H].
      injection H as <- <-.
      destruct before' as [|c' before'].
      * change ("" +:+ pat +:+ after') with (pat +:+ after') in Hs.
        rewrite Hs, strip_prefix_self in E. discriminate E.
      * change (String c s = String c' (before' +:+ pat +:+ after')) in Hs.
        injection Hs as _ Hs. specialize (IH b eq_refl before' after' Hs).
        simpl. lia.
Qed.

(** A text that holds the pattern is split by [split_first]. *)
Lemma split_first_found (pat a b : string) :
  exists before after, JS.split_first pat (a +:+ pat +:+ b) = Some (before, after).
Proof.
  induction a as [|c a IH].
  - change ("" +:+ pat +:+ b) with (pat +:+ b).
    destruct (pat +:+ b) as [|x r] eqn:E.
    + simpl. destruct pat; [eexists _, _; reflexivity|discriminate E].
    + simpl. rewrite <- E, strip_prefix_self. eexists _, _; reflexivity.
  - change (String c a +:+ pat +:+ b) with (String c (a +:+ pat +:+ b)).
    simpl. destruct (JS.strip_prefix pat (String c (a +:+ pat +:+ b))).
    + eexists _, _; reflexivity.
    + destruct IH as (before & after & ->). eexists _, _; reflexivity.
Qed.

Lemma includes_app (a needle b : string) :
  includes (a +:+ needle +:+ b) needle = true.
Proof.
  unfold includes. destruct (split_first_found needle a b) as (x & y & ->).
  reflexivity.
Qed.

(** ** The prompts *)

(** X14: when the base template cannot be read, generate-prp throws the read
    error after its one read and builds no message. *)
Theorem generate_prp_read_failure (initialContent : string) (w : World) :
  files w (prp_base_path (cwd w)) = None ->
  generate_prp initialContent w
  = ([ReadFile (prp_base_path (cwd w))],
     Throw (JS.ErrnoException "open" (prp_base_path (cwd w)))).
Proof.
  intros Hf. unfold generate_prp, Node.bind, process_cwd, readFile. simpl.
  rewrite Hf. reflexivity.
Qed.

Lemma generate_prp_read_failure_witness :
  generate_prp "Build a login page" bare_world
  = ([ReadFile "/srv/app/context-template/PRPs/templates/prp_base.md"],
     Throw (JS.ErrnoException "open"
              "/srv/app/context-template/PRPs/templates/prp_base.md")).
Proof.
  apply (generate_prp_read_failure "Build a login page" bare_world).
  reflexivity.
Defined.

(** X13: generate-prp replaces the first occurrence of the placeholder only.
    Whenever the template holds the placeholder after some text [a], the
    message is the template with one occurrence replaced, an occurrence that
    starts no later than [a] ends; what follows it is kept, further
    placeholders included. The content is one without a dollar sign. *)
Theorem generate_prp_first_occurrence (initialContent a b : string) (w : World) :
  files w (prp_base_path (cwd w)) = Some (a +:+ prp_placeholder +:+ b) ->
  JS.has_char "$" initialContent = false ->
  exists before after,
    a +:+ prp_placeholder +:+ b = before +:+ prp_placeholder +:+ after
    /\ (String.length before <= String.length a)%nat
    /\ outcome (generate_prp initialContent) w
       = Ok (user_message (before +:+ initialContent +:+ after)).
Proof.
  intros Hf Hd.
  destruct (split_first_found prp_placeholder a b) as (before & after & Hs).
  exists before, after.
  destruct (replace_plain _ _ initialContent before after Hd Hs) as [Ht Hr].
  split; [exact Ht|]. split.
  - exact (split_first_minimal _ _ _ _ Hs a b eq_refl).
  - unfold outcome, generate_prp, Node.bind, process_cwd, readFile, ret. simpl.
    rewrite Hf. simpl. rewrite Hr. reflexivity.
Qed.

Lemma generate_prp_first_occurrence_witness :
  exists before after,
    "## Goal
" +:+ prp_placeholder +:+ "
## Why
" = before +:+ prp_placeholder +:+ after
    /\ (String.length before <= 8)%nat
    /\ outcome (generate_prp "Build a login page") sample_world
       = Ok (user_message (before +:+ "Build a login page" +:+ after)).
Proof.
  apply (generate_prp_first_occurrence "Build a login page" "## Goal
" "
## Why
" sample_world).
  - vm_compute. reflexivity.
  - reflexivity.
Defined.

(** X15: execute-prp makes no file-system call and never throws; its one user
    message is the fixed instructions with the content put in as it is,
    dollar signs included, so the text starts with the fixed head, holds
    the content and is as long as the three parts together. *)
Theorem execute_prp_verbatim (prpContent : string) (w : World) :
  exists t,
    execute_prp prpContent w = ([], Ok (user_message t))
    /\ t = execution_instructions_head +:+ prpContent
           +:+ execution_instructions_tail
    /\ JS.startsWith t execution_instructions_head = true
    /\ includes t prpContent = true
    /\ String.length t
       = (String.length execution_instructions_head + String.length prpContent
          + String.length execution_instructions_tail)%nat.
Proof.
  eexists. split; [reflexivity|]. split; [reflexivity|]. split; [|split].
  - apply startsWith_app.
  - apply includes_app.
  - rewrite !string_length_app. lia.
Qed.

(** ** Edges of the resource handlers *)

(** X4: a capture that is an empty array makes the language-standards
    handler throw a type error before any file-system call. *)
Theorem language_standards_empty_array (uri : string) (w : World) :
  language_standards uri (Multi []) w
  = ([], Throw (JS.TypeError
                  "Cannot read properties of undefined (reading 'toLowerCase')")).
Proof. reflexivity. Qed.

(** X5: two names with the same lower-case form read the same standards
    file, and when that file is readable both replies hold its text as
    text/markdown, each under the URI it was asked with. *)
Theorem language_standards_case_insensitive
    (uri1 uri2 name1 name2 : string) (w : World) :
  toLowerCase w name1 = toLowerCase w name2 ->
  trace (language_standards uri1 (Single name1)) w
  = trace (language_standards uri2 (Single name2)) w
  /\ (forall standardsText,
        files w (standards_path w name1) = Some standardsText ->
        outcome (language_standards uri1 (Single name1)) w
        = Ok {| contents :=
                  [ {| uri := uri1; text := standardsText;
                       mimeType := Some "text/markdown" |} ] |}
        /\ outcome (language_standards uri2 (Single name2)) w
           = Ok {| contents :=
                     [ {| uri := uri2; text := standardsText;
                          mimeType := Some "text/markdown" |} ] |}).
Proof.
  intros Hl.
  assert (Hp : standards_path w name1 = standards_path w name2)
    by (unfold standards_path; rewrite Hl; reflexivity).
  split.
  - rewrite !(language_standards_trace _ _ (Single _) w eq_refl), Hp.
    reflexivity.
  - intros standardsText Hf. split.
    + unfold outcome, language_standards, Node.bind, String_toLowerCase,
        process_cwd, try_catch, readFile, ret.
      simpl. fold (standards_path w name1). rewrite Hf. reflexivity.
    + rewrite Hp in Hf.
      unfold outcome, language_standards, Node.bind, String_toLowerCase,
        process_cwd, try_catch, readFile, ret.
      simpl. fold (standards_path w name2). rewrite Hf. reflexivity.
Qed.

Lemma language_standards_case_insensitive_witness :
  outcome (language_standards "standards://language/GO" (Single "GO"))
    sample_world
  = Ok {| contents :=
            [ {| uri := "standards://language/GO";
                 text := "## Coding Standards (Go)";
                 mimeType := Some "text/markdown" |} ] |}
  /\ outcome (language_standards "standards://language/go" (Single "go"))
       sample_world
     = Ok {| contents :=
               [ {| uri := "standards://language/go";
                    text := "## Coding Standards (Go)";
                    mimeType := Some "text/markdown" |} ] |}.
Proof.
  refine (proj2 (language_standards_case_insensitive "standards://language/GO"
                   "standards://language/go" "GO" "go" sample_world _)
            "## Coding Standards (Go)" _).
  - reflexivity.
  - vm_compute. reflexivity.
Defined.

(** X9: when the examples directory cannot be listed, the list view throws
    the error of the one listing call; unlike a missing example file, it has
    no fallback text. *)
Theorem examples_list_unreadable (uri : string) (w : World) :
  dirs w (examples_dir (cwd w)) = None ->
  examples uri (Single "list") w
  = ([Readdir (examples_dir (cwd w))],
     Throw (JS.ErrnoException "scandir" (examples_dir (cwd w)))).
Proof.
  intros Hd. unfold examples, Node.bind, process_cwd, readdir. simpl.
  rewrite Hd. reflexivity.
Qed.

Lemma examples_list_unreadable_witness :
  examples "examples://list" (Single "list") bare_world
  = ([Readdir "/srv/app/context-template/examples"],
     Throw (JS.ErrnoException "scandir" "/srv/app/context-template/examples")).
Proof.
  apply (examples_list_unreadable "examples://list" bare_world). reflexivity.
Defined.

(** ** Paths of names without traversal *)

Lemma split_nonempty (sep : ascii) (s : string) : JS.split sep s <> [].
Proof.
  destruct s as [|c s]; [discriminate|]. simpl.
  destruct (Ascii.eqb c sep); [discriminate|].
  destruct (JS.split sep s); discriminate.
Qed.

Lemma join_cons_char (sep : string) (c : ascii) (x : string) (l : list string) :
  JS.join sep (String c x :: l) = String c (JS.join sep (x :: l)).
Proof. destruct l; reflexivity. Qed.

(** Joining the parts [split] makes of a text gives the text back. *)
Lemma join_split (sep : ascii) (s : string) :
  JS.join (String sep "") (JS.split sep s) = s.
Proof.
  induction s as [|c s IH]; [reflexivity|]. simpl.
  destruct (Ascii.eqb c sep) eqn:E.
  - apply Ascii.eqb_eq in E as ->.
    destruct (JS.split sep s) as [|seg segs] eqn:Es;
      [exfalso; exact (split_nonempty sep s Es)|].
    change (String sep (JS.join (String sep "") (seg :: segs)) = String sep s).
    rewrite IH. reflexivity.
  - destruct (JS.split sep s) as [|seg segs] eqn:Es;
      [exfalso; exact (split_nonempty sep s Es)|].
    rewrite join_cons_char, IH. reflexivity.
Qed.

Lemma split_app (sep : ascii) (a b : string) :
  JS.split sep (a +:+ String sep b) = JS.split sep a ++ JS.split sep b.
Proof.
  induction a as [|c a IH].
  - change ("" +:+ String sep b) with (String sep b). simpl.
    rewrite Ascii.eqb_refl. reflexivity.
  - change (String c a +:+ String sep b) with (String c (a +:+ String sep b)).
    simpl. rewrite IH. destruct (Ascii.eqb c sep); [reflexivity|].
    destruct (JS.split sep a) as [|seg segs] eqn:Es;
      [exfalso; exact (split_nonempty sep a Es)|].
    reflexivity.
Qed.

Lemma join_app (sep : string) (l1 l2 : list string) :
  l1 <> [] -> l2 <> [] ->
  JS.join sep (l1 ++ l2) = JS.join sep l1 +:+ sep +:+ JS.join sep l2.
Proof.
  intros H1 H2. induction l1 as [|x l1 IH]; [contradiction|].
  destruct l1 as [|y l1].
  - destruct l2; [contradiction|]. reflexivity.
  - change (JS.join sep ((x :: y :: l1) ++ l2))
      with (x +:+ sep +:+ JS.join sep ((y :: l1) ++ l2)).
    rewrite IH by discriminate.
    change (JS.join sep (x :: y :: l1)) with (x +:+ sep +:+ JS.join sep (y :: l1)).
    rewrite !string_app_assoc. reflexivity.
Qed.

Lemma clean_segment_inv (seg : string) :
  clean_segment seg = true ->
  String.eqb seg "" = false /\ String.eqb seg "." = false
  /\ String.eqb seg ".." = false /\ JS.has_char "/" seg = false.
Proof.
  unfold clean_segment. intros H.
  apply andb_prop in H as [H H4]. apply andb_prop in H as [H H3].
  apply andb_prop in H as [H1 H2].
  repeat split; apply negb_true_iff; assumption.
Qed.

Lemma forallb_Forall {A : Type} (f : A -> bool) (l : list A) :
  forallb f l = true <-> Forall (fun x => f x = true) l.
Proof.
  induction l as [|x l IH]; simpl.
  - split; [constructor|reflexivity].
  - rewrite andb_true_iff, IH. split.
    + intros [Hx Hl]. constructor; assumption.
    + intros H. inversion H; subst. split; assumption.
Qed.

(** [normalizeString] keeps clean segments as they come. *)
Lemma fold_step_clean (above : bool) (segs kept : list string) :
  Forall (fun seg => clean_segment seg = true) segs ->
  fold_left (Path.step above) segs kept = rev segs ++ kept.
Proof.
  intros Hall. revert kept. induction Hall as [|seg segs Hs _ IH]; intros kept.
  - reflexivity.
  - destruct (clean_segment_inv seg Hs) as (E1 & E2 & E3 & _).
    cbn [fold_left]. unfold Path.step at 2. rewrite E1, E2, E3.
    cbn [orb]. rewrite IH. cbn [rev]. rewrite <- app_assoc. reflexivity.
Qed.

Lemma endsWithSlash_app (a b : string) :
  b <> "" -> Path.endsWithSlash (a +:+ b) = Path.endsWithSlash b.
Proof.
  intros Hb. induction a as [|c a IH]; [reflexivity|].
  change (String c a +:+ b) with (String c (a +:+ b)).
  destruct (a +:+ b) as [|x r] eqn:E.
  - destruct a; [|discriminate E].
    change ("" +:+ b) with b in E. contradiction.
  - rewrite <- IH. reflexivity.
Qed.

Lemma endsWithSlash_clean (seg : string) :
  JS.has_char "/" seg = false -> Path.endsWithSlash seg = false.
Proof.
  induction seg as [|c seg IH]; [reflexivity|].
  simpl. intros H. apply orb_false_iff in H as [Hc Hs].
  destruct seg; [exact Hc|]. apply IH, Hs.
Qed.

Lemma endsWithSlash_join (a : string) (names : list string) :
  names <> [] ->
  Forall (fun seg => clean_segment seg = true) names ->
  Path.endsWithSlash (a +:+ "/" +:+ JS.join "/" names) = false.
Proof.
  intros Hne Hall. revert a. induction Hall as [|n l Hn Hl IH]; intros a;
    [contradiction|].
  destruct (clean_segment_inv n Hn) as (E1 & _ & _ & E4).
  destruct l as [|m l].
  - cbn [JS.join]. rewrite <- string_app_assoc, endsWithSlash_app.
    + apply endsWithSlash_clean, E4.
    + intros ->. discriminate E1.
  - change (JS.join "/" (n :: m :: l)) with (n +:+ "/" +:+ JS.join "/" (m :: l)).
    replace (a +:+ "/" +:+ n +:+ "/" +:+ JS.join "/" (m :: l))
      with ((a +:+ "/" +:+ n) +:+ "/" +:+ JS.join "/" (m :: l))
      by (rewrite !string_app_assoc; reflexivity).
    apply (IH ltac:(discriminate)).
Qed.

(** [path.join] on a clean absolute directory and clean names is the plain
    concatenation with slashes, and is again a clean absolute path. *)
Lemma join_clean (base : string) (names : list string) :
  clean_absolute base = true ->
  names <> [] ->
  Forall (fun seg => clean_segment seg = true) names ->
  Path.join (base :: names) = base +:+ "/" +:+ JS.join "/" names
  /\ clean_absolute (base +:+ "/" +:+ JS.join "/" names) = true.
Proof.
  intros Hb Hne Hall. unfold clean_absolute in Hb.
  destruct (Path.split base) as [|[|] [|seg segs]] eqn:Es; try discriminate Hb.
  assert (Hbase : base = String "/" (JS.join "/" (seg :: segs))).
  { rewrite <- (join_split "/" base). fold (Path.split base). rewrite Es.
    reflexivity. }
  apply forallb_Forall in Hb.
  assert (Hsplit : Path.split (base +:+ "/" +:+ JS.join "/" names)
                   = "" :: (seg :: segs) ++ names).
  { unfold Path.split. change ("/" +:+ JS.join "/" names)
      with (String "/" (JS.join "/" names)).
    rewrite split_app. fold (Path.split base). rewrite Es.
    rewrite (split_join "/" names Hne).
    - reflexivity.
    - eapply Forall_impl; [exact Hall|]. intros n Hn.
      exact (proj2 (proj2 (proj2 (clean_segment_inv n Hn)))). }
  assert (Hclean : Forall (fun s => clean_segment s = true) ((seg :: segs) ++ names))
    by (apply Forall_app; split; assumption).
  split.
  - unfold Path.join.
    assert (Hfilter : filter (fun a : string => a <> "") (base :: names)
                      = base :: names).
    { rewrite filter_cons_True by (rewrite Hbase; discriminate). f_equal.
      clear -Hall. induction Hall as [|n l Hn _ IH]; [reflexivity|].
      rewrite filter_cons_True, IH; [reflexivity|].
      intros ->. discriminate Hn. }
    rewrite Hfilter.
    assert (Hj : JS.join "/" (base :: names) = base +:+ "/" +:+ JS.join "/" names)
      by (destruct names; [contradiction|reflexivity]).
    rewrite Hj.
    assert (Hn : Path.normalizeString (base +:+ "/" +:+ JS.join "/" names) false
                 = JS.join "/" ((seg :: segs) ++ names)).
    { unfold Path.normalizeString. rewrite Hsplit. cbn [fold_left].
      unfold Path.step at 2. cbn [String.eqb orb].
      rewrite (fold_step_clean false _ [] Hclean), app_nil_r, rev_involutive.
      reflexivity. }
    assert (Hhead : String.eqb (base +:+ "/" +:+ JS.join "/" names) "" = false
                    /\ Path.isAbsolute (base +:+ "/" +:+ JS.join "/" names) = true).
    { rewrite Hbase. split; reflexivity. }
    unfold Path.normalize.
    rewrite (endsWithSlash_join base names Hne Hall).
    destruct Hhead as [-> ->]. cbn [negb]. rewrite Hn.
    rewrite join_app by (assumption || discriminate).
    destruct (clean_segment_inv seg (Forall_inv Hb)) as (E1 & _).
    destruct seg as [|c seg]; [discriminate E1|].
    rewrite join_cons_char.
    change (String c (JS.join "/" (seg :: segs)) +:+ "/" +:+ JS.join "/" names)
      with (String c (JS.join "/" (seg :: segs) +:+ "/" +:+ JS.join "/" names)).
    cbn [String.eqb]. rewrite Hbase, join_cons_char. reflexivity.
  - unfold clean_absolute. rewrite Hsplit. cbn [app].
    apply forallb_Forall. exact Hclean.
Qed.

Lemma has_char_app (c : ascii) (a b : string) :
  JS.has_char c (a +:+ b) = (JS.has_char c a || JS.has_char c b)%bool.
Proof.
  induction a as [|x a IH]; [reflexivity|].
  change (String x a +:+ b) with (String x (a +:+ b)). simpl.
  rewrite IH, orb_assoc. reflexivity.
Qed.

(** A file name that ends in .md and holds no slash is a clean segment,
    whatever comes before the ending. *)
Lemma standards_file_clean (lowerLang : string) :
  JS.has_char "/" lowerLang = false ->
  clean_segment (lowerLang +:+ ".md") = true.
Proof.
  intros Hs. unfold clean_segment.
  assert (Hlen : forall x, (String.length x < 3)%nat ->
                 String.eqb (lowerLang +:+ ".md") x = false).
  { intros x Hx. apply String.eqb_neq. intros H.
    apply (f_equal String.length) in H. rewrite string_length_app in H.
    simpl in H. lia. }
  rewrite !Hlen by (simpl; lia).
  rewrite has_char_app, Hs. reflexivity.
Qed.

(** X6: with a clean absolute working directory, a name whose lower-case
    form holds no slash never leaves the standards directory: the handler
    reads <cwd>/standards/<lower-cased name>.md, a path below
    <cwd>/standards, also when the lower-case form is "." or "..". *)
Theorem standards_no_slash_stays_inside (uri name : string) (w : World) :
  clean_absolute (cwd w) = true ->
  JS.has_char "/" (toLowerCase w name) = false ->
  trace (language_standards uri (Single name)) w
  = [ReadFile (cwd w +:+ "/standards/" +:+ toLowerCase w name +:+ ".md")]
  /\ Path.below (Path.join [cwd w; "standards"]) (standards_path w name) = true.
Proof.
  intros Hc Hs.
  destruct (join_clean (cwd w) ["standards"; toLowerCase w name +:+ ".md"] Hc)
    as [Hp _]; [discriminate| |].
  { repeat constructor. apply standards_file_clean, Hs. }
  destruct (join_clean (cwd w) ["standards"] Hc) as [Hd _];
    [discriminate|repeat constructor|].
  rewrite (language_standards_trace uri name (Single name) w eq_refl).
  unfold standards_path. rewrite Hp, Hd. split; [reflexivity|].
  unfold Path.below.
  replace (cwd w +:+ "/" +:+ JS.join "/" ["standards"; toLowerCase w name +:+ ".md"])
    with (((cwd w +:+ "/" +:+ JS.join "/" ["standards"]) +:+ "/")
          +:+ toLowerCase w name +:+ ".md")
    by (rewrite !string_app_assoc; reflexivity).
  apply startsWith_app.
Qed.

Lemma standards_no_slash_stays_inside_witness :
  trace (language_standards "standards://language/.." (Single "..")) sample_world
  = [ReadFile "/srv/app/standards/...md"]
  /\ Path.below (Path.join [cwd sample_world; "standards"])
       (standards_path sample_world "..") = true.
Proof.
  apply (standards_no_slash_stays_inside "standards://language/.." ".."
           sample_world); reflexivity.
Defined.

(** X11: with a clean absolute working directory, an example name that is one
    clean segment (not empty, not "." or "..", without a slash) and not the
    token list is read from <cwd>/context-template/examples/<name>, a path
    below the examples directory. *)
Theorem examples_clean_name_stays_inside (uri name : string) (w : World) :
  clean_absolute (cwd w) = true ->
  clean_segment name = true ->
  name <> "list" ->
  trace (examples uri (Single name)) w
  = [ReadFile (cwd w +:+ "/context-template/examples/" +:+ name)]
  /\ Path.below (examples_dir (cwd w)) (example_path (cwd w) name) = true.
Proof.
  intros Hc Hn Hl.
  destruct (join_clean (cwd w) ["context-template"; "examples"] Hc)
    as [Hd Hdc]; [discriminate|repeat constructor|].
  assert (Hp : example_path (cwd w) name = examples_dir (cwd w) +:+ "/" +:+ name).
  { unfold example_path, examples_dir. rewrite Hd.
    destruct (join_clean _ [name] Hdc) as [Hp _];
      [discriminate|repeat constructor; exact Hn|].
    exact Hp. }
  rewrite (examples_trace uri name w Hl), Hp. split.
  - unfold examples_dir. rewrite Hd, !string_app_assoc. reflexivity.
  - unfold Path.below. rewrite <- string_app_assoc. apply startsWith_app.
Qed.

Lemma examples_clean_name_stays_inside_witness :
  trace (examples "examples://hello.ts" (Single "hello.ts")) sample_world
  = [ReadFile "/srv/app/context-template/examples/hello.ts"]
  /\ Path.below (examples_dir (cwd sample_world))
       (example_path (cwd sample_world) "hello.ts") = true.
Proof.
  apply (examples_clean_name_stays_inside "examples://hello.ts" "hello.ts"
           sample_world); [reflexivity|reflexivity|].
  intros H. discriminate H.
Defined.

(** ** What [getServer] binds to each identifier *)

Lemma registerResource_fresh (nm uri : string) (md : Mcp.Metadata)
    (cb : Mcp.ReadResourceCallback) (server : Mcp.McpServer) :
  Mcp.registeredResources server !! uri = None ->
  Mcp.registerResource nm uri md cb server
  = Ok {| Mcp.name := Mcp.name server; Mcp.version := Mcp.version server;
          Mcp.registeredResources :=
            <[uri := {| Mcp.resourceName := nm; Mcp.resourceMetadata := md;
                        Mcp.readCallback := cb |}]>
              (Mcp.registeredResources server);
          Mcp.registeredResourceTemplates :=
            Mcp.registeredResourceTemplates server;
          Mcp.registeredPrompts := Mcp.registeredPrompts server |}.
Proof. intros H. unfold Mcp.registerResource. rewrite H. reflexivity. Qed.

Lemma registerResourceTemplate_fresh (nm template : string) (md : Mcp.Metadata)
    (cb : Mcp.ReadResourceTemplateCallback) (server : Mcp.McpServer) :
  Mcp.registeredResourceTemplates server !! nm = None ->
  Mcp.registerResourceTemplate nm template md cb server
  = Ok {| Mcp.name := Mcp.name server; Mcp.version := Mcp.version server;
          Mcp.registeredResources := Mcp.registeredResources server;
          Mcp.registeredResourceTemplates :=
            <[nm := {| Mcp.uriTemplate := template; Mcp.templateMetadata := md;
                       Mcp.readTemplateCallback := cb |}]>
              (Mcp.registeredResourceTemplates server);
          Mcp.registeredPrompts := Mcp.registeredPrompts server |}.
Proof. intros H. unfold Mcp.registerResourceTemplate. rewrite H. reflexivity. Qed.

Lemma registerPrompt_fresh (nm : string) (md : Mcp.Metadata) (arg : string)
    (cb : Mcp.PromptCallback) (server : Mcp.McpServer) :
  Mcp.registeredPrompts server !! nm = None ->
  Mcp.registerPrompt nm md arg cb server
  = Ok {| Mcp.name := Mcp.name server; Mcp.version := Mcp.version server;
          Mcp.registeredResources := Mcp.registeredResources server;
          Mcp.registeredResourceTemplates :=
            Mcp.registeredResourceTemplates server;
          Mcp.registeredPrompts :=
            <[nm := {| Mcp.promptMetadata := md; Mcp.argName := arg;
                       Mcp.promptCallback := cb |}]>
              (Mcp.registeredPrompts server) |}.
Proof. intros H. unfold Mcp.registerPrompt. rewrite H. reflexivity. Qed.

(** The key about to be registered is in none of the insertions made so
    far. *)
Ltac key_is_fresh :=
  cbn [Mcp.registeredResources Mcp.registeredResourceTemplates
       Mcp.registeredPrompts];
  rewrite ?lookup_insert_ne by done; apply lookup_empty.

(** Go on with the server the registration returned, its fields read off. *)
Ltac next_registration :=
  cbn [mbind Result_bind mret Result_ret
       Mcp.name Mcp.version Mcp.registeredResources
       Mcp.registeredResourceTemplates Mcp.registeredPrompts].

(** The binding of a key is the insertion made for it, later insertions
    being for other keys. *)
Ltac key_is_bound :=
  cbn [Mcp.registeredResources Mcp.registeredResourceTemplates
       Mcp.registeredPrompts];
  rewrite ?lookup_insert_ne by done; rewrite lookup_insert_eq; reflexivity.

(** X2: the server [getServer] returns binds every identifier of the source
    to its own handler: the three fixed URIs to the core-principles, rules
    and base-template readers, the three template names to their URI
    template and reader, and the two prompt names to their argument and
    callback. No registration replaces an earlier one. *)
Theorem getServer_routes :
  exists server,
    getServer = Ok server
    /\ Mcp.readCallback <$> (Mcp.registeredResources server !! "principles://core")
       = Some core_principles
    /\ Mcp.readCallback <$> (Mcp.registeredResources server !! "rules://claude.md")
       = Some claude_rules
    /\ Mcp.readCallback
         <$> (Mcp.registeredResources server !! "templates://prp_base.md")
       = Some prp_base_template
    /\ (fun t => (Mcp.uriTemplate t, Mcp.readTemplateCallback t))
         <$> (Mcp.registeredResourceTemplates server !! "greeting")
       = Some ("greeting://{name}", greeting)
    /\ (fun t => (Mcp.uriTemplate t, Mcp.readTemplateCallback t))
         <$> (Mcp.registeredResourceTemplates server !! "language-standards")
       = Some ("standards://language/{languageName}", language_standards)
    /\ (fun t => (Mcp.uriTemplate t, Mcp.readTemplateCallback t))
         <$> (Mcp.registeredResourceTemplates server !! "examples")
       = Some ("examples://{exampleName}", examples)
    /\ (fun p => (Mcp.argName p, Mcp.promptCallback p))
         <$> (Mcp.registeredPrompts server !! "generate-prp")
       = Some ("initialContent", generate_prp)
    /\ (fun p => (Mcp.argName p, Mcp.promptCallback p))
         <$> (Mcp.registeredPrompts server !! "execute-prp")
       = Some ("prpContent", execute_prp).
Proof.
  unfold getServer, Mcp.new_McpServer.
  rewrite registerResourceTemplate_fresh by key_is_fresh; next_registration.
  rewrite registerResource_fresh by key_is_fresh; next_registration.
  rewrite registerResourceTemplate_fresh by key_is_fresh; next_registration.
  rewrite registerResource_fresh by key_is_fresh; next_registration.
  rewrite registerResource_fresh by key_is_fresh; next_registration.
  rewrite registerResourceTemplate_fresh by key_is_fresh; next_registration.
  rewrite registerPrompt_fresh by key_is_fresh; next_registration.
  rewrite registerPrompt_fresh by key_is_fresh; next_registration.
  eexists. split; [reflexivity|].
  repeat split; key_is_bound.
Qed.

(** X1: [getServer] never fails, as no URI and no name is registered twice,
    and the server it returns holds exactly three fixed resources, three
    resource templates and two prompts, under the keys of the source. *)
Theorem getServer_registers_exactly :
  exists server,
    getServer = Ok server
    /\ dom (Mcp.registeredResources server)
       = ({[ "principles://core"; "rules://claude.md";
             "templates://prp_base.md" ]} : gset string)
    /\ dom (Mcp.registeredResourceTemplates server)
       = ({[ "greeting"; "language-standards"; "examples" ]} : gset string)
    /\ dom (Mcp.registeredPrompts server)
       = ({[ "generate-prp"; "execute-prp" ]} : gset string).
Proof. exact getServer_spec. Qed.

(** X3: the greeting makes no file-system call and never throws, whatever
    the capture: its one item has no media type and its text greets the
    capture as a template literal prints it, so an empty array is greeted
    with an empty name. *)
Theorem greeting_embeds_capture (uri : string) (name : capture) (w : World) :
  exists t,
    greeting uri name w
    = ([], Ok {| contents := [ {| uri := uri; text := t; mimeType := None |} ] |})
    /\ JS.startsWith t "Hello, " = true
    /\ includes t (interpolate name) = true
    /\ (name = Multi [] -> t = "Hello, ! This is your personal MCP server.").
Proof.
  eexists. split; [reflexivity|]. split; [apply startsWith_app|].
  split; [apply includes_app|]. intros ->. reflexivity.
Qed.

Lemma greeting_embeds_capture_witness :
  exists t,
    greeting "greeting://" (Multi []) sample_world
    = ([], Ok {| contents :=
                   [ {| uri := "greeting://"; text := t; mimeType := None |} ] |})
    /\ t = "Hello, ! This is your personal MCP server.".
Proof.
  destruct (greeting_embeds_capture "greeting://" (Multi []) sample_world)
    as (t & Hg & _ & _ & Ht).
  exists t. split; [exact Hg|]. apply Ht. reflexivity.
Defined.

Lemma examples_list_lines_witness :
  exists item,
    outcome (examples "examples://list" (Single "list")) sample_world
    = Ok {| contents := [item] |}
    /\ JS.split "010" (text item)
       = ["Available examples:"; "- hello.ts"; "- README.md"].
Proof.
  apply (examples_list_lines "examples://list" ["hello.ts"; "README.md"]
           sample_world).
  - vm_compute. reflexivity.
  - discriminate.
  - repeat constructor.
Defined.

Lemma examples_miss_witness :
  outcome (examples "examples://nope.ts" (Single "nope.ts")) sample_world
  = Ok {| contents :=
            [ {| uri := "examples://nope.ts";
                 text := "Example 'nope.ts' not found.";
                 mimeType := Some "text/plain" |} ] |}.
Proof.
  apply (examples_miss "examples://nope.ts" "nope.ts" sample_world).
  - intros H. discriminate H.
  - vm_compute. reflexivity.
Defined.

Lemma generate_prp_plain_witness :
  outcome (generate_prp "Build a login page") sample_world
  = Ok (user_message ("## Goal
" +:+ "Build a login page" +:+ "
## Why
")).
Proof.
  refine (proj2 (proj2 (proj2 (generate_prp_plain "Build a login page"
                                 sample_template sample_world _))
                   "## Goal
" "
## Why
" _ _)).
  - vm_compute. reflexivity.
  - reflexivity.
  - vm_compute. reflexivity.
Defined.
